(** * Optimistic list reconciliation in the ExpoEvents front end

  A shallow embedding of the stateful logic of
  [frontend/src/App.jsx] (AuthProvider, MainApp, EventListPage,
  BookmarksPage, NotificationsPage) and of the extracted
  [EventsPage] component, followed by the properties of the
  optimistic-update handlers.

  React state is threaded explicitly; a handler is a small program
  over the component state that may suspend on an HTTP request and
  is resumed with the settlement of that request. *)

From Stdlib Require Import ZArith String List.
From stdpp Require Import base option list strings gmap fin_maps pretty.

Local Open Scope string_scope.
Local Open Scope Z_scope.

(** ** JavaScript values and objects *)

Module Js.

(** The primitive values that occur in the JSON payloads of the
    back end.  Numbers are the integers: ids and counters. *)
Inductive value : Type :=
| VUndefined
| VNull
| VBool (b : bool)
| VNum (n : Z)
| VStr (s : string).

#[global] Instance value_eq_dec : EqDecision value.
Proof. solve_decision. Defined.

#[global] Instance value_inhabited : Inhabited value := populate VUndefined.

(** [ToBoolean]. *)
Definition truthy (v : value) : bool :=
  match v with
  | VUndefined | VNull => false
  | VBool b => b
  | VNum n => negb (n =? 0)
  | VStr s => negb (String.eqb s "")
  end.

(** The unary [!]. *)
Definition not (v : value) : value := VBool (negb (truthy v)).

(** [a === b] and [a !== b] on primitive values. *)
Definition strict_eq (a b : value) : bool := bool_decide (a = b).
Definition strict_ne (a b : value) : bool := negb (strict_eq a b).

(** [ToString], as used by a template literal; an integer prints in
    decimal. *)
Definition to_string (v : value) : string :=
  match v with
  | VUndefined => "undefined"
  | VNull => "null"
  | VBool true => "true"
  | VBool false => "false"
  | VNum n => pretty n
  | VStr s => s
  end.

(** A flat object: own properties by name. *)
Abbreviation obj := (gmap string value).

(** [o.p]: a missing property reads as [undefined]. *)
Definition get (o : obj) (p : string) : value := default VUndefined (o !! p).

(** [{ ...o, p: v }]. *)
Definition spread_set (o : obj) (p : string) (v : value) : obj := <[p := v]> o.

End Js.


(** ** HTTP requests through the [api] client *)

Inductive method : Type := GET | POST | PUT | DELETE.

Record request : Type := Request {
  req_method : method;
  req_url : string;
  req_body : option Js.obj
}.

#[global] Instance method_eq_dec : EqDecision method.
Proof. solve_decision. Defined.

#[global] Instance request_eq_dec : EqDecision request.
Proof. solve_decision. Defined.

(** What the handlers read of a rejection: [err.response?.status],
    [err.response?.data?.message] and [err.message]. *)
Record error : Type := Error {
  err_status : option Z;
  err_server_message : option string;
  err_message : string
}.

Definition api_get (url : string) : request := Request GET url None.
Definition api_post (url : string) (body : option Js.obj) : request := Request POST url body.
Definition api_put (url : string) : request := Request PUT url None.
Definition api_delete (url : string) : request := Request DELETE url None.

(** ** Handlers as resumable programs

    [S] is the state held by the component's [useState] cells and
    [R] the type of [response.data] for the endpoints the component
    reads.  A program runs until it needs the settlement of a
    request ([Await]); the environment resumes it later, and other
    state updates may happen in between. *)

Section Async.

Context {S R : Type}.

Inductive settlement : Type :=
| Fulfilled (data : R)
| Rejected (e : error).

Inductive async (A : Type) : Type :=
| Ret (a : A)
| Throw (e : error)
| SetState (f : S → S) (k : async A)
| ConsoleError (msg : string) (e : error) (k : async A)
| Await (r : request) (k : settlement → async A)
| Detach (child : async unit) (k : async A).

Arguments Ret {A} a.
Arguments Throw {A} e.
Arguments SetState {A} f k.
Arguments ConsoleError {A} msg e k.
Arguments Await {A} r k.
Arguments Detach {A} child k.

Fixpoint bind {A B : Type} (m : async A) (f : A → async B) : async B :=
  match m with
  | Ret a => f a
  | Throw e => Throw e
  | SetState g k => SetState g (bind k f)
  | ConsoleError msg e k => ConsoleError msg e (bind k f)
  | Await r k => Await r (λ s, bind (k s) f)
  | Detach c k => Detach c (bind k f)
  end.

(** [try { m } catch (e) { h e }].  A rejection of a promise that
    was started but not awaited inside the block is not caught. *)
Fixpoint try_catch {A : Type} (m : async A) (h : error → async A) : async A :=
  match m with
  | Ret a => Ret a
  | Throw e => h e
  | SetState g k => SetState g (try_catch k h)
  | ConsoleError msg e k => ConsoleError msg e (try_catch k h)
  | Await r k => Await r (λ s, try_catch (k s) h)
  | Detach c k => Detach c (try_catch k h)
  end.

(** [try { m } finally { fin }]. *)
Definition try_finally {A : Type} (m : async A) (fin : async unit) : async A :=
  bind (try_catch (bind m (λ a, Ret (inr a))) (λ e, Ret (inl e)))
       (λ r, bind fin (λ _, match r with inl e => Throw e | inr a => Ret a end)).

(** A state setter called with an updater function, or with a value. *)
Definition set_state (f : S → S) : async unit := SetState f (Ret tt).

(** [console.error(msg, e)]. *)
Definition console_error (msg : string) (e : error) : async unit :=
  ConsoleError msg e (Ret tt).

(** [await p], for the promise [p] of the request [r]. *)
Definition await (r : request) : async R :=
  Await r (λ s, match s with Fulfilled d => Ret d | Rejected e => Throw e end).

(** [p.catch(h)], for the promise [p] of the request [r]; the
    promise that [catch] returns is dropped by the callers. *)
Definition promise_catch (r : request) (h : error → async unit) : async unit :=
  Await r (λ s, match s with Fulfilled _ => Ret tt | Rejected e => h e end).

(** A call [f()] of an async function whose promise is dropped. *)
Definition detach (child : async unit) : async unit := Detach child (Ret tt).

(** *** Running a program *)

Record world : Type := World {
  state : S;
  console : list (string * error);
  sent : list request;
  background : list (request * (settlement → async unit));
  unhandled : list error
}.

Definition init_world (s : S) : world := World s [] [] [] [].

Definition with_state (f : S → S) (w : world) : world :=
  World (f (state w)) (console w) (sent w) (background w) (unhandled w).

Definition log_error (msg : string) (e : error) (w : world) : world :=
  World (state w) (console w ++ [(msg, e)]) (sent w) (background w) (unhandled w).

Definition send (r : request) (w : world) : world :=
  World (state w) (console w) (sent w ++ [r]) (background w) (unhandled w).

Definition park (r : request) (k : settlement → async unit) (w : world) : world :=
  World (state w) (console w) (sent w) (background w ++ [(r, k)]) (unhandled w).

Definition unhandled_rejection (e : error) (w : world) : world :=
  World (state w) (console w) (sent w) (background w) (unhandled w ++ [e]).

Inductive outcome (A : Type) : Type :=
| Returned (a : A)
| Threw (e : error)
| Suspended (r : request) (k : settlement → async A).

Arguments Returned {A} a.
Arguments Threw {A} e.
Arguments Suspended {A} r k.

(** What becomes of a task nobody waits for. *)
Definition dropped (o : outcome unit) (w : world) : world :=
  match o with
  | Returned _ => w
  | Threw e => unhandled_rejection e w
  | Suspended r k => park r k (send r w)
  end.

(** [run_to_await] runs to completion or to the first request the
    program itself waits for; the request is not yet recorded. *)
Fixpoint run_to_await {A : Type} (m : async A) (w : world) : outcome A * world :=
  match m with
  | Ret a => (Returned a, w)
  | Throw e => (Threw e, w)
  | SetState f k => run_to_await k (with_state f w)
  | ConsoleError msg e k => run_to_await k (log_error msg e w)
  | Await r k => (Suspended r k, w)
  | Detach c k =>
      let '(o, w') := run_to_await c w in
      run_to_await k (dropped o w')
  end.

Definition run {A : Type} (m : async A) (w : world) : outcome A * world :=
  let '(o, w') := run_to_await m w in
  match o with
  | Suspended r _ => (o, send r w')
  | _ => (o, w')
  end.

(** The environment settles the request a suspended program waits for. *)
Definition resume {A : Type} (k : settlement → async A) (s : settlement)
    (w : world) : outcome A * world :=
  run (k s) w.

(** The environment settles the request of the [i]-th parked task. *)
Definition settle_background (i : nat) (s : settlement) (w : world) : world :=
  match background w !! i with
  | None => w
  | Some (_, k) =>
      let w1 := World (state w) (console w) (sent w)
                      (delete i (background w)) (unhandled w) in
      let '(o, w2) := run_to_await (k s) w1 in
      dropped o w2
  end.

End Async.

Arguments settlement : clear implicits.
Arguments async : clear implicits.
Arguments world : clear implicits.
Arguments outcome : clear implicits.
Arguments Fulfilled {R} data.
Arguments Rejected {R} e.
Arguments Ret {S R A} a.
Arguments Throw {S R A} e.
Arguments SetState {S R A} f k.
Arguments ConsoleError {S R A} msg e k.
Arguments Await {S R A} r k.
Arguments Detach {S R A} child k.
Arguments Returned {S R A} a.
Arguments Threw {S R A} e.
Arguments Suspended {S R A} r k.

#[global] Instance async_ret {S R} : MRet (async S R) := λ A, Ret.
#[global] Instance async_bind {S R} : MBind (async S R) := λ A B f m, bind m f.

(** Run a handler and settle the request it waits for with [s]. *)
Definition run_settled {S R A} (m : async S R A) (s : settlement R)
    (w : world S R) : outcome S R A * world S R :=
  match run m w with
  | (Suspended _ k, w1) => resume k s w1
  | done => done
  end.

(** Run a handler; before the request it waits for settles, another
    operation updates the component state by [other]; then settle
    the request with [s]. *)
Definition run_interleaved {S R A} (m : async S R A) (other : S → S)
    (s : settlement R) (w : world S R) : outcome S R A * world S R :=
  match run m w with
  | (Suspended _ k, w1) => resume k s (with_state other w1)
  | done => done
  end.

(** ** AuthProvider: the session store *)

Module AuthProvider.

Record t : Type := Store { user : option Js.obj; isLoading : bool }.

(** [useState(null)] and [useState(true)]. *)
Definition initial : t := Store None true.

Definition setUser (u : option Js.obj) (s : t) : t := Store u (isLoading s).
Definition setIsLoading (b : bool) (s : t) : t := Store (user s) b.

Abbreviation prog := (async t Js.obj).

Definition credentials (username password : string) : Js.obj :=
  <["username" := Js.VStr username]> (<["password" := Js.VStr password]> ∅).

Definition checkSession : prog unit :=
  try_catch
    (response ← await (api_get "/auth/check");
     set_state (setUser (Some response)))
    (λ _, set_state (setUser None));;
  set_state (setIsLoading false).

Definition login (username password : string) : prog Js.obj :=
  response ← await (api_post "/auth/login" (Some (credentials username password)));
  set_state (setUser (Some response));;
  mret response.

Definition register (username password : string) : prog Js.obj :=
  response ← await (api_post "/auth/register" (Some (credentials username password)));
  set_state (setUser (Some response));;
  mret response.

Definition logout : prog unit :=
  await (api_post "/auth/logout" None);;
  set_state (setUser None).

(** The three situations the consumers tell apart: the provider
    renders no children while [isLoading], and [MainApp] branches on
    [user]. *)
Inductive session : Type :=
| Unknown
| Authenticated (identity : Js.obj)
| Anonymous.

Definition session_of (s : t) : session :=
  if isLoading s then Unknown
  else match user s with
       | Some u => Authenticated u
       | None => Anonymous
       end.

End AuthProvider.

(** ** List pages: EventListPage, EventsPage, BookmarksPage *)

Record list_page : Type := ListPage { events : list Js.obj; isLoading : bool }.

(** [useState([])] and [useState(true)]. *)
Definition list_page_initial : list_page := ListPage [] true.

(** [setEvents(updater)], [setEvents(value)] and [setIsLoading(value)]. *)
Definition setEvents (f : list Js.obj → list Js.obj) (s : list_page) : list_page :=
  ListPage (f (events s)) (isLoading s).
Definition setIsLoading (b : bool) (s : list_page) : list_page :=
  ListPage (events s) b.

(** What a list page shows. *)
Inductive view : Type :=
| ShowLoading
| ShowEmpty
| ShowCards (items : list Js.obj).

Definition render (s : list_page) : view :=
  if isLoading s then ShowLoading
  else if (length (events s) =? 0)%nat then ShowEmpty
  else ShowCards (events s).

Abbreviation page_prog := (async list_page (list Js.obj)).

Definition bookmark_url (event : Js.obj) : string :=
  "/events/" ++ Js.to_string (Js.get event "id") ++ "/bookmark".

(** The updaters passed to [setEvents] by the handlers. *)
Definition flip_item (event e : Js.obj) : Js.obj :=
  if Js.strict_eq (Js.get e "id") (Js.get event "id")
  then Js.spread_set e "isBookmarked" (Js.not (Js.get e "isBookmarked"))
  else e.

Definition flip_bookmark (event : Js.obj) (current : list Js.obj) : list Js.obj :=
  map (flip_item event) current.

Definition revert_item (event e : Js.obj) : Js.obj :=
  if Js.strict_eq (Js.get e "id") (Js.get event "id")
  then Js.spread_set e "isBookmarked" (Js.get event "isBookmarked")
  else e.

Definition revert_bookmark (event : Js.obj) (current : list Js.obj) : list Js.obj :=
  map (revert_item event) current.

Definition drop_event (event : Js.obj) (current : list Js.obj) : list Js.obj :=
  filter (λ e, Js.strict_ne (Js.get e "id") (Js.get event "id") = true) current.

Definition add_back (event : Js.obj) (current : list Js.obj) : list Js.obj :=
  current ++ [event].

(** Ids as the data model has them: no two items of a collection
    share one. *)
Definition unique_ids (l : list Js.obj) : Prop :=
  NoDup (map (λ e, Js.get e "id") l).

(** How many items of [l] carry the id of [event]. *)
Definition count_id (event : Js.obj) (l : list Js.obj) : nat :=
  length (filter (λ e, Js.get e "id" = Js.get event "id") l).

Module EventListPage.

Definition fetchEvents : page_prog unit :=
  set_state (setIsLoading true);;
  try_catch
    (response ← await (api_get "/events");
     set_state (setEvents (λ _, response)))
    (λ error, console_error "Error fetching events:" error);;
  set_state (setIsLoading false).

Definition handleBookmarkToggle (event : Js.obj) : page_prog unit :=
  set_state (setEvents (flip_bookmark event));;
  let promise :=
    if Js.truthy (Js.get event "isBookmarked")
    then api_delete (bookmark_url event)
    else api_post (bookmark_url event) None in
  promise_catch promise (λ err,
    console_error "Failed to toggle bookmark" err;;
    set_state (setEvents (revert_bookmark event))).

End EventListPage.

(** The extracted page component, with its Refresh button. *)
Module EventsPage.

Definition fetchEvents : page_prog unit :=
  set_state (setIsLoading true);;
  try_finally
    (try_catch
       (response ← await (api_get "/events");
        set_state (setEvents (λ _, response)))
       (λ error, console_error "Error fetching events:" error))
    (set_state (setIsLoading false)).

Definition handleBookmarkToggle (event : Js.obj) : page_prog unit :=
  set_state (setEvents (flip_bookmark event));;
  let request :=
    if Js.truthy (Js.get event "isBookmarked")
    then api_delete (bookmark_url event)
    else api_post (bookmark_url event) None in
  promise_catch request (λ error,
    console_error "Failed to toggle bookmark" error;;
    set_state (setEvents (revert_bookmark event))).

End EventsPage.

Module BookmarksPage.

Definition fetchBookmarkedEvents : page_prog unit :=
  set_state (setIsLoading true);;
  try_catch
    (response ← await (api_get "/events/my-bookmarks");
     set_state (setEvents (λ _, response)))
    (λ error, console_error "Error fetching bookmarks:" error);;
  set_state (setIsLoading false).

Definition handleRemoveBookmark (event : Js.obj) : page_prog unit :=
  set_state (setEvents (drop_event event));;
  promise_catch (api_delete (bookmark_url event)) (λ err,
    console_error "Failed to remove bookmark" err;;
    set_state (setEvents (add_back event))).

End BookmarksPage.

(** ** MainApp and NotificationsPage *)

Module MainApp.

Record t : Type := App { page : string; notifications : list Js.obj }.

(** [useState('events')] and [useState([])]. *)
Definition initial : t := App "events" [].

Definition setPage (p : string) (s : t) : t := App p (notifications s).
Definition setNotifications (l : list Js.obj) (s : t) : t := App (page s) l.

Abbreviation prog := (async t (list Js.obj)).

Definition fetchNotifications : prog unit :=
  try_catch
    (response ← await (api_get "/events/notifications");
     set_state (setNotifications response))
    (λ error, console_error "Error fetching notifications:" error).

(** The effect that runs when [user] changes. *)
Definition on_user_change (user : option Js.obj) : prog unit :=
  match user with
  | Some _ => set_state (setPage "events");; detach fetchNotifications
  | None => set_state (setPage "login")
  end.

Definition unreadCount (s : t) : nat :=
  length (filter (λ n, Js.truthy (Js.not (Js.get n "is_read")) = true) (notifications s)).

End MainApp.

Module NotificationsPage.

Definition mark_read_url (id : Js.value) : string :=
  "/events/notifications/" ++ Js.to_string id ++ "/read".

Definition handleMarkRead (id : Js.value) : MainApp.prog unit :=
  try_catch
    (await (api_put (mark_read_url id));;
     detach MainApp.fetchNotifications)
    (λ error, console_error "Error marking notification read:" error).

(** The list shown: the empty-state line or one row per notification. *)
Definition render (s : MainApp.t) : option (list Js.obj) :=
  if (length (MainApp.notifications s) =? 0)%nat then None
  else Some (MainApp.notifications s).

End NotificationsPage.

(** The two copies of the toggle handler. *)
Definition toggle_handlers : list (Js.obj → page_prog unit) :=
  [EventListPage.handleBookmarkToggle; EventsPage.handleBookmarkToggle].

(** The list-loading functions of the pages, with their log line. *)
Definition page_fetchers : list (page_prog unit * string) :=
  [(EventListPage.fetchEvents, "Error fetching events:");
   (EventsPage.fetchEvents, "Error fetching events:");
   (BookmarksPage.fetchBookmarkedEvents, "Error fetching bookmarks:")].

(** The mutations of the list pages on [event], with their log line. *)
Definition page_mutations (event : Js.obj) : list (page_prog unit * string) :=
  [(EventListPage.handleBookmarkToggle event, "Failed to toggle bookmark");
   (EventsPage.handleBookmarkToggle event, "Failed to toggle bookmark");
   (BookmarksPage.handleRemoveBookmark event, "Failed to remove bookmark")].

(** ** Sample data *)

Module Sample.

Definition event_item (id : Z) (flag : bool) : Js.obj :=
  <["id" := Js.VNum id]> (<["isBookmarked" := Js.VBool flag]> ∅).

Definition bookmark_item (id : Z) : Js.obj := <["id" := Js.VNum id]> ∅.

Definition notification (id : Z) (read : bool) : Js.obj :=
  <["id" := Js.VNum id]> (<["is_read" := Js.VBool read]> ∅).

Definition identity (name : string) : Js.obj := <["username" := Js.VStr name]> ∅.

Definition network_error : error := Error None None "Network Error".

Definition page_world (l : list Js.obj) : world list_page (list Js.obj) :=
  init_world (ListPage l false).

Definition app_world (l : list Js.obj) : world MainApp.t (list Js.obj) :=
  init_world (MainApp.App "notifications" l).

Definition auth_world (s : AuthProvider.t) : world AuthProvider.t Js.obj :=
  init_world s.

End Sample.

(** ** Programs over a part of the state

    A function of the session store called from a page runs on the
    store inside the state of the whole application. *)

Fixpoint zoom {S T R : Type} (get : T → S) (set : S → T → T) {A : Type}
    (m : async S R A) : async T R A :=
  match m with
  | Ret a => Ret a
  | Throw e => Throw e
  | SetState f k => SetState (λ t, set (f (get t)) t) (zoom get set k)
  | ConsoleError msg e k => ConsoleError msg e (zoom get set k)
  | Await r k => Await r (λ s, zoom get set (k s))
  | Detach c k => Detach (zoom get set c) (zoom get set k)
  end.

(** [a || b]. *)
Definition js_or (a b : Js.value) : Js.value := if Js.truthy a then a else b.

(** ** AuthPage *)

(** The page has a state cell named [error]; what a request rejects
    with goes by this name there. *)
Abbreviation rejection := error.

Module AuthPage.

Record t : Type := Form {
  isLogin : bool;
  username : string;
  password : string;
  error : option string
}.

(** [useState(true)], [useState('')], [useState('')], [useState(null)]. *)
Definition initial : t := Form true "" "" None.

Definition setIsLogin (b : bool) (s : t) : t :=
  Form b (username s) (password s) (error s).
Definition setUsername (u : string) (s : t) : t :=
  Form (isLogin s) u (password s) (error s).
Definition setPassword (p : string) (s : t) : t :=
  Form (isLogin s) (username s) p (error s).
Definition setError (e : option string) (s : t) : t :=
  Form (isLogin s) (username s) (password s) e.

(** The provider's store and the form of the page under it. *)
Record app : Type := App { store : AuthProvider.t; form : t }.

Definition on_form (f : t → t) (a : app) : app := App (store a) (f (form a)).

Abbreviation prog := (async app Js.obj).

(** [login] and [register] as obtained from [useAuth()]. *)
Definition in_store {A : Type} (m : AuthProvider.prog A) : prog A :=
  zoom store (λ s a, App s (form a)) m.

(** [err.response?.status ? `(${err.response.status}) ` : '']. *)
Definition status_text (err : rejection) : string :=
  match err_status err with
  | Some n => if Js.truthy (Js.VNum n)
              then "(" ++ Js.to_string (Js.VNum n) ++ ") "
              else ""
  | None => ""
  end.

(** [err.response?.data?.message || err.message || '...']. *)
Definition message_text (err : rejection) : Js.value :=
  js_or (js_or (match err_server_message err with
                | Some m => Js.VStr m
                | None => Js.VUndefined
                end)
               (Js.VStr (err_message err)))
        (Js.VStr "An error occurred. Please try again.").

Definition error_text (err : rejection) : string :=
  status_text err ++ Js.to_string (message_text err).

(** [handleSubmit], with the form values of the render it was
    created in. *)
Definition handleSubmit (shown : t) : prog unit :=
  set_state (on_form (setError None));;
  try_catch
    (if isLogin shown
     then in_store (AuthProvider.login (username shown) (password shown));; mret tt
     else in_store (AuthProvider.register (username shown) (password shown));; mret tt)
    (λ err,
       console_error "Auth error:" err;;
       set_state (on_form (setError (Some (error_text err))))).

(** The link under the form: [setIsLogin(!isLogin)]. *)
Definition switchMode (shown : t) : prog unit :=
  set_state (on_form (setIsLogin (negb (isLogin shown)))).

End AuthPage.

(** ** What the cards, rows and navigation show

    Texts and flags only; dates and class names are left out. *)

Record card : Type := Card {
  card_name : Js.value;
  card_description : Js.value;
  card_location : Js.value;
  card_button : option string
}.

(** [EventCard]: the location falls back to TBD, the button needs a
    signed-in user and is labelled by [event.isBookmarked]. *)
Definition EventCard (user : option Js.obj) (event : Js.obj) : card :=
  Card (Js.get event "name")
       (Js.get event "description")
       (js_or (Js.get event "location") (Js.VStr "TBD"))
       (match user with
        | Some _ => Some (if Js.truthy (Js.get event "isBookmarked")
                          then "Remove Bookmark" else "Bookmark Event")
        | None => None
        end).

Record notification_row : Type := NotificationRow {
  row_key : Js.value;
  row_read : bool;
  row_message : Js.value;
  row_button : bool
}.

(** One [li] of NotificationsPage: greyed when read, with the Mark
    Read button when not. *)
Definition notification_li (notif : Js.obj) : notification_row :=
  NotificationRow (Js.get notif "id")
                  (Js.truthy (Js.get notif "is_read"))
                  (Js.get notif "message")
                  (Js.truthy (Js.not (Js.get notif "is_read"))).

Definition notification_rows (s : MainApp.t) : list notification_row :=
  map notification_li (MainApp.notifications s).

Record nav_button : Type := NavButtonView {
  nav_label : string;
  nav_active : bool;
  nav_badge : option nat
}.

(** [NavButton]: the badge is drawn when [badgeCount > 0]. *)
Definition NavButton (label : string) (isActive : bool) (badgeCount : nat) : nav_button :=
  NavButtonView label isActive
    (if (0 <? badgeCount)%nat then Some badgeCount else None).

(** The navigation of the header of MainApp. *)
Definition MainApp_nav (s : MainApp.t) : list nav_button :=
  [NavButton "Events" (String.eqb (MainApp.page s) "events") 0;
   NavButton "My Bookmarks" (String.eqb (MainApp.page s) "bookmarks") 0;
   NavButton "Notifications" (String.eqb (MainApp.page s) "notifications")
             (MainApp.unreadCount s)].

(** The extracted header. *)
Module AppHeader.

Record nav_item : Type := NavItem { key : string; label : string; icon : string }.

Definition NAV_ITEMS : list nav_item :=
  [NavItem "events" "Events" "🗓️";
   NavItem "bookmarks" "Bookmarks" "⭐";
   NavItem "notifications" "Notifications" "🔔"].

(** The props handed to one [NavPill]. *)
Record pill : Type := Pill {
  pill_key : string;
  pill_label : string;
  pill_icon : string;
  pill_active : bool;
  pill_badge : nat
}.

Definition pills (activePage : string) (unreadCount : nat) : list pill :=
  map (λ item,
         Pill (key item) (label item) (icon item)
              (String.eqb activePage (key item))
              (if String.eqb (key item) "notifications" then unreadCount else 0%nat))
      NAV_ITEMS.

End AppHeader.

(** Two handlers started one after the other, settled in the order
    given: [first_a] tells whether the request of [a] settles first. *)
Definition run_two {S R} (a b : async S R unit) (sa sb : settlement R)
    (first_a : bool) (w : world S R) : world S R :=
  match run a w with
  | (Suspended _ ka, w1) =>
      match run b w1 with
      | (Suspended _ kb, w2) =>
          if first_a
          then (resume kb sb (resume ka sa w2).2).2
          else (resume ka sa (resume kb sb w2).2).2
      | (_, w2) => (resume ka sa w2).2
      end
  | (_, w1) => (run_settled b sb w1).2
  end.

(** * Properties *)

(** ** Values and objects *)

Lemma strict_eq_true (a b : Js.value) : Js.strict_eq a b = true ↔ a = b.
Proof. unfold Js.strict_eq. apply bool_decide_eq_true. Qed.

Lemma strict_eq_false (a b : Js.value) : Js.strict_eq a b = false ↔ a ≠ b.
Proof. unfold Js.strict_eq. apply bool_decide_eq_false. Qed.

Lemma strict_ne_true (a b : Js.value) : Js.strict_ne a b = true ↔ a ≠ b.
Proof.
  unfold Js.strict_ne. rewrite negb_true_iff. apply strict_eq_false.
Qed.

Lemma get_spread_set_ne (o : Js.obj) (p q : string) (v : Js.value) :
  p ≠ q → Js.get (Js.spread_set o p v) q = Js.get o q.
Proof.
  intros Hpq. unfold Js.get, Js.spread_set. by rewrite lookup_insert_ne.
Qed.

Lemma get_spread_set_eq (o : Js.obj) (p : string) (v : Js.value) :
  Js.get (Js.spread_set o p v) p = v.
Proof. unfold Js.get, Js.spread_set. by rewrite lookup_insert_eq. Qed.

Lemma spread_set_twice (o : Js.obj) (p : string) (u v : Js.value) :
  Js.spread_set (Js.spread_set o p u) p v = Js.spread_set o p v.
Proof. unfold Js.spread_set. apply insert_insert_eq. Qed.

Lemma spread_set_same (o : Js.obj) (p : string) (v : Js.value) :
  o !! p = Some v → Js.spread_set o p v = o.
Proof. unfold Js.spread_set. apply insert_id. Qed.

Lemma get_of_lookup (o : Js.obj) (p : string) (v : Js.value) :
  o !! p = Some v → Js.get o p = v.
Proof. unfold Js.get. by intros ->. Qed.

Lemma not_bool (b : bool) : Js.not (Js.VBool b) = Js.VBool (negb b).
Proof. reflexivity. Qed.

(** ** The updaters *)

Section Updaters.

Implicit Types (event other e : Js.obj) (l : list Js.obj).

Lemma unique_ids_same_id l event e :
  unique_ids l → event ∈ l → e ∈ l →
  Js.get e "id" = Js.get event "id" → e = event.
Proof.
  unfold unique_ids. induction l as [|x l IH]; simpl; intros Hnd Hev He Hid.
  - by apply not_elem_of_nil in Hev.
  - apply NoDup_cons in Hnd as [Hx Hnd].
    apply elem_of_cons in Hev as [->|Hev]; apply elem_of_cons in He as [->|He];
      try done.
    + exfalso. apply Hx. rewrite <- Hid. apply list_elem_of_In.
      apply (in_map (λ e, Js.get e "id")). by apply list_elem_of_In.
    + exfalso. apply Hx. rewrite Hid. apply list_elem_of_In.
      apply (in_map (λ e, Js.get e "id")). by apply list_elem_of_In.
    + by apply IH.
Qed.

Lemma flip_bookmark_length event l : length (flip_bookmark event l) = length l.
Proof. unfold flip_bookmark. by rewrite length_map. Qed.

Lemma flip_bookmark_lookup event l (n : nat) :
  flip_bookmark event l !! n = flip_item event <$> l !! n.
Proof. unfold flip_bookmark. apply list_lookup_fmap. Qed.

Lemma flip_item_id event e : Js.get (flip_item event e) "id" = Js.get e "id".
Proof.
  unfold flip_item. destruct (Js.strict_eq _ _); [|done].
  by apply get_spread_set_ne.
Qed.

Lemma revert_item_id event e : Js.get (revert_item event e) "id" = Js.get e "id".
Proof.
  unfold revert_item. destruct (Js.strict_eq _ _); [|done].
  by apply get_spread_set_ne.
Qed.

Lemma flip_item_other event e :
  Js.get e "id" ≠ Js.get event "id" → flip_item event e = e.
Proof. intros Hne. unfold flip_item. by apply strict_eq_false in Hne as ->. Qed.

Lemma flip_item_target event e :
  Js.get e "id" = Js.get event "id" →
  flip_item event e =
  Js.spread_set e "isBookmarked" (Js.not (Js.get e "isBookmarked")).
Proof. intros Heq. unfold flip_item. by apply strict_eq_true in Heq as ->. Qed.

Lemma revert_item_target event e :
  Js.get e "id" = Js.get event "id" →
  revert_item event e =
  Js.spread_set e "isBookmarked" (Js.get event "isBookmarked").
Proof. intros Heq. unfold revert_item. by apply strict_eq_true in Heq as ->. Qed.

(** Reverting a flipped item gives it back when its stored flag is
    the captured one. *)
Lemma revert_flip_item event e :
  (Js.get e "id" = Js.get event "id" →
   e !! "isBookmarked" = Some (Js.get event "isBookmarked")) →
  revert_item event (flip_item event e) = e.
Proof.
  intros Hflag.
  destruct (decide (Js.get e "id" = Js.get event "id")) as [Heq|Hne].
  - rewrite revert_item_target by by rewrite flip_item_id.
    rewrite flip_item_target by done.
    rewrite spread_set_twice. apply spread_set_same. by apply Hflag.
  - rewrite flip_item_other by done. unfold revert_item.
    by apply strict_eq_false in Hne as ->.
Qed.

Lemma elem_of_drop_event other e l :
  e ∈ drop_event other l ↔ e ∈ l ∧ Js.get e "id" ≠ Js.get other "id".
Proof.
  unfold drop_event. rewrite list_elem_of_filter, strict_ne_true. tauto.
Qed.

Lemma drop_event_map_id other (g : Js.obj → Js.obj) l :
  (∀ e, Js.get (g e) "id" = Js.get e "id") →
  drop_event other (map g l) = map g (drop_event other l).
Proof.
  intros Hg. unfold drop_event. induction l as [|x l IH]; [done|].
  simpl. rewrite !filter_cons, Hg.
  destruct (decide _); simpl; by rewrite IH.
Qed.

Lemma drop_event_unique other l : unique_ids l → unique_ids (drop_event other l).
Proof.
  unfold unique_ids, drop_event. induction l as [|x l IH]; [done|].
  simpl. intros [Hx Hnd]%NoDup_cons. rewrite filter_cons.
  destruct (decide _); [|by apply IH].
  simpl. apply NoDup_cons. split; [|by apply IH].
  intros Hin. apply Hx. apply list_elem_of_In, in_map_iff in Hin as (y & Hy & Hiny).
  apply list_elem_of_In, list_elem_of_filter in Hiny as [_ Hiny].
  rewrite <- Hy. apply list_elem_of_In, (in_map (λ e, Js.get e "id")).
  by apply list_elem_of_In.
Qed.

(** Reverting after flipping gives back every item whose stored flag
    is the one the handler captured. *)
Lemma revert_flip_bookmark event l :
  (∀ e, e ∈ l → Js.get e "id" = Js.get event "id" →
        e !! "isBookmarked" = Some (Js.get event "isBookmarked")) →
  revert_bookmark event (flip_bookmark event l) = l.
Proof.
  intros Hflag. unfold revert_bookmark, flip_bookmark.
  rewrite map_map. rewrite <- (map_id l) at 2.
  apply map_ext_in. intros e He. apply list_elem_of_In in He.
  apply revert_flip_item. by apply Hflag.
Qed.

Lemma revert_flip_bookmark_unique event l (v : Js.value) :
  unique_ids l → event ∈ l → event !! "isBookmarked" = Some v →
  revert_bookmark event (flip_bookmark event l) = l.
Proof.
  intros Hu Hev Hv. apply revert_flip_bookmark. intros e He Hid.
  rewrite (unique_ids_same_id l event e Hu Hev He Hid).
  by rewrite (get_of_lookup _ _ _ Hv).
Qed.

End Updaters.

(** ** The handlers, run *)

Section Handlers.

Implicit Types (event other e : Js.obj) (l : list Js.obj) (err : error).
Implicit Types (w : world list_page (list Js.obj)).

(** The request a toggle issues. *)
Lemma toggle_request_eq event :
  (if Js.truthy (Js.get event "isBookmarked")
   then api_delete (bookmark_url event)
   else api_post (bookmark_url event) None) =
  Request (if Js.truthy (Js.get event "isBookmarked") then DELETE else POST)
          (bookmark_url event) None.
Proof. by destruct (Js.truthy _). Qed.

Lemma EventsPage_toggle_same event :
  EventsPage.handleBookmarkToggle event = EventListPage.handleBookmarkToggle event.
Proof. reflexivity. Qed.

(** The synchronous part of a toggle: the optimistic patch, then the
    request. *)
Lemma toggle_started event w :
  (run (EventListPage.handleBookmarkToggle event) w).2 =
  send (Request (if Js.truthy (Js.get event "isBookmarked") then DELETE else POST)
                (bookmark_url event) None)
       (with_state (setEvents (flip_bookmark event)) w).
Proof.
  unfold EventListPage.handleBookmarkToggle. rewrite toggle_request_eq.
  reflexivity.
Qed.

Lemma toggle_rejected event (other : list_page → list_page) err w :
  run_interleaved (EventListPage.handleBookmarkToggle event) other (Rejected err) w =
  (Returned tt,
   with_state (setEvents (revert_bookmark event))
     (log_error "Failed to toggle bookmark" err
        (with_state other
           (send (Request (if Js.truthy (Js.get event "isBookmarked")
                           then DELETE else POST) (bookmark_url event) None)
                 (with_state (setEvents (flip_bookmark event)) w))))).
Proof.
  unfold EventListPage.handleBookmarkToggle. rewrite toggle_request_eq.
  reflexivity.
Qed.

Lemma toggle_fulfilled event (data : list Js.obj) w :
  run_settled (EventListPage.handleBookmarkToggle event) (Fulfilled data) w =
  (Returned tt, (run (EventListPage.handleBookmarkToggle event) w).2).
Proof.
  unfold EventListPage.handleBookmarkToggle. rewrite toggle_request_eq.
  reflexivity.
Qed.

Lemma run_settled_interleaved {S R A} (m : async S R A) (s : settlement R)
    (w' : world S R) :
  run_settled m s w' = run_interleaved m (λ x, x) s w'.
Proof.
  unfold run_settled, run_interleaved.
  destruct (run m w') as [[a|e|r k] [st c sn b u]]; reflexivity.
Qed.

End Handlers.

(** ** Bookmark toggle *)

(** The two copies are the same program: a property of one is a
    property of each. *)
Ltac for_each_handler H :=
  unfold toggle_handlers;
  repeat (apply List.Forall_cons; [exact H|]);
  apply List.Forall_nil.

Section Toggle.

Implicit Types (event other e : Js.obj) (l : list Js.obj) (err : error).
Implicit Types (w : world list_page (list Js.obj)).

(** C1. Round trip of a failed toggle: if the collection holds
    [event] (the item with id i), its flag is the boolean [f] and ids
    are unique, then the optimistic flip followed by the failure
    handler leaves exactly the original collection (same items, same
    order, same fields), and the item with id i carries flag [f]. *)
Theorem toggle_rollback_roundtrip w event (f : bool) err :
  event ∈ events (state w) →
  event !! "isBookmarked" = Some (Js.VBool f) →
  unique_ids (events (state w)) →
  Forall (λ handler,
    let final := events (state (run_settled (handler event) (Rejected err) w).2) in
    final = events (state w) ∧
    ∀ e, e ∈ final → Js.get e "id" = Js.get event "id" →
         e !! "isBookmarked" = Some (Js.VBool f))
    toggle_handlers.
Proof.
  intros Hin Hflag Hu.
  assert (Hrt : events (state (run_settled
              (EventListPage.handleBookmarkToggle event) (Rejected err) w).2)
            = events (state w)).
  { rewrite run_settled_interleaved, toggle_rejected. simpl.
    by apply (revert_flip_bookmark_unique event _ (Js.VBool f)). }
  assert (Hgoal : let final := events (state (run_settled
              (EventListPage.handleBookmarkToggle event) (Rejected err) w).2) in
            final = events (state w) ∧
            ∀ e, e ∈ final → Js.get e "id" = Js.get event "id" →
                 e !! "isBookmarked" = Some (Js.VBool f)).
  { cbv zeta. rewrite Hrt. split; [done|]. intros e He Hid.
    by rewrite (unique_ids_same_id _ event e Hu Hin He Hid). }
  for_each_handler Hgoal.
Qed.

Lemma toggle_rollback_roundtrip_witness :
  Forall (λ handler,
    let final := events (state (run_settled
        (handler (Sample.event_item 1 false)) (Rejected Sample.network_error)
        (Sample.page_world [Sample.event_item 1 false; Sample.event_item 2 true])).2) in
    final = [Sample.event_item 1 false; Sample.event_item 2 true] ∧
    ∀ e, e ∈ final →
         Js.get e "id" = Js.get (Sample.event_item 1 false) "id" →
         e !! "isBookmarked" = Some (Js.VBool false))
    toggle_handlers.
Proof.
  apply (toggle_rollback_roundtrip
           (Sample.page_world [Sample.event_item 1 false; Sample.event_item 2 true])
           (Sample.event_item 1 false) false Sample.network_error).
  - apply list_elem_of_here.
  - reflexivity.
  - apply (bool_decide_unpack _). vm_compute. reflexivity.
Defined.

(** C2. Identity by id: toggle [event] (id i), let another operation
    remove the items with the id j of [other] (j ≠ i) before the
    request settles, then fail the request.  No item with id j is in
    the result, [event] itself is back in it, every item with id i
    carries the pre-toggle flag [f], and with unique ids the result is
    the original collection without j. *)
Theorem rollback_by_id_after_removal w event other (f : bool) err :
  event ∈ events (state w) →
  event !! "isBookmarked" = Some (Js.VBool f) →
  Js.get other "id" ≠ Js.get event "id" →
  Forall (λ handler,
    let final := events (state (run_interleaved (handler event)
                   (setEvents (drop_event other)) (Rejected err) w).2) in
    (∀ e, e ∈ final → Js.get e "id" ≠ Js.get other "id") ∧
    event ∈ final ∧
    (∀ e, e ∈ final → Js.get e "id" = Js.get event "id" →
          Js.get e "isBookmarked" = Js.VBool f) ∧
    (unique_ids (events (state w)) →
     final = drop_event other (events (state w))))
    toggle_handlers.
Proof.
  intros Hin Hflag Hne.
  assert (Hgoal : let final := events (state (run_interleaved
              (EventListPage.handleBookmarkToggle event)
              (setEvents (drop_event other)) (Rejected err) w).2) in
            (∀ e, e ∈ final → Js.get e "id" ≠ Js.get other "id") ∧
            event ∈ final ∧
            (∀ e, e ∈ final → Js.get e "id" = Js.get event "id" →
                  Js.get e "isBookmarked" = Js.VBool f) ∧
            (unique_ids (events (state w)) →
             final = drop_event other (events (state w)))).
  { cbv zeta. rewrite toggle_rejected. simpl.
    set (C := events (state w)) in *.
    assert (Hmem : ∀ e, e ∈ revert_bookmark event
                          (drop_event other (flip_bookmark event C)) →
              ∃ e', e' ∈ C ∧ Js.get e' "id" ≠ Js.get other "id" ∧
                    e = revert_item event (flip_item event e')).
    { intros e He. unfold revert_bookmark in He.
      apply list_elem_of_In, in_map_iff in He as (x & <- & Hx).
      apply list_elem_of_In, elem_of_drop_event in Hx as [Hx Hxid].
      unfold flip_bookmark in Hx.
      apply list_elem_of_In, in_map_iff in Hx as (e' & <- & He').
      exists e'. rewrite flip_item_id in Hxid.
      split; [by apply list_elem_of_In|done]. }
    split; [|split; [|split]].
    - intros e He. destruct (Hmem e He) as (e' & _ & Hid & ->).
      by rewrite revert_item_id, flip_item_id.
    - rewrite <- (revert_flip_item event event) at 1.
      2:{ intros _. by rewrite (get_of_lookup _ _ _ Hflag). }
      unfold revert_bookmark. apply list_elem_of_In, in_map, list_elem_of_In.
      apply elem_of_drop_event. split.
      + unfold flip_bookmark. by apply list_elem_of_In, in_map, list_elem_of_In.
      + rewrite flip_item_id. congruence.
    - intros e He Hid. destruct (Hmem e He) as (e' & _ & _ & ->).
      rewrite revert_item_id in Hid.
      rewrite revert_item_target by done.
      rewrite get_spread_set_eq. by apply get_of_lookup.
    - intros Hu. unfold flip_bookmark.
      rewrite (drop_event_map_id other (flip_item event))
        by apply flip_item_id.
      apply (revert_flip_bookmark event (drop_event other C)).
      intros e [He _]%elem_of_drop_event Hid.
      rewrite (unique_ids_same_id C event e Hu Hin He Hid).
      by rewrite (get_of_lookup _ _ _ Hflag). }
  for_each_handler Hgoal.
Qed.

Lemma rollback_by_id_after_removal_witness :
  Forall (λ handler,
    let final := events (state (run_interleaved
        (handler (Sample.event_item 2 true))
        (setEvents (drop_event (Sample.event_item 1 false)))
        (Rejected Sample.network_error)
        (Sample.page_world [Sample.event_item 1 false; Sample.event_item 2 true;
                            Sample.event_item 3 false])).2) in
    (∀ e, e ∈ final → Js.get e "id" ≠ Js.get (Sample.event_item 1 false) "id") ∧
    Sample.event_item 2 true ∈ final ∧
    (∀ e, e ∈ final → Js.get e "id" = Js.get (Sample.event_item 2 true) "id" →
          Js.get e "isBookmarked" = Js.VBool true) ∧
    (unique_ids [Sample.event_item 1 false; Sample.event_item 2 true;
                 Sample.event_item 3 false] →
     final = drop_event (Sample.event_item 1 false)
               [Sample.event_item 1 false; Sample.event_item 2 true;
                Sample.event_item 3 false]))
    toggle_handlers.
Proof.
  apply (rollback_by_id_after_removal
           (Sample.page_world [Sample.event_item 1 false; Sample.event_item 2 true;
                               Sample.event_item 3 false])
           (Sample.event_item 2 true) (Sample.event_item 1 false) true
           Sample.network_error).
  - apply list_elem_of_further, list_elem_of_here.
  - reflexivity.
  - vm_compute. discriminate.
Defined.

(** C5. The request of a toggle is chosen by the flag the handler
    was called with, the pre-toggle value: POST
    /events/{id}/bookmark when it is false, DELETE
    /events/{id}/bookmark when it is true; it is the one request
    issued and the one the handler waits for. *)
Theorem toggle_request_by_pretoggle_flag w event (f : bool) :
  Js.get event "isBookmarked" = Js.VBool f →
  Forall (λ handler,
    let call := Request (if f then DELETE else POST)
                  ("/events/" ++ Js.to_string (Js.get event "id") ++ "/bookmark")
                  None in
    sent (run (handler event) w).2 = (sent w ++ [call])%list ∧
    ∃ k, (run (handler event) w).1 = Suspended call k)
    toggle_handlers.
Proof.
  intros Hflag.
  assert (Hgoal :
    let call := Request (if f then DELETE else POST)
                  ("/events/" ++ Js.to_string (Js.get event "id") ++ "/bookmark")
                  None in
    sent (run (EventListPage.handleBookmarkToggle event) w).2 = (sent w ++ [call])%list ∧
    ∃ k, (run (EventListPage.handleBookmarkToggle event) w).1 = Suspended call k).
  { cbv zeta. split.
    - rewrite toggle_started. simpl. by rewrite Hflag.
    - unfold EventListPage.handleBookmarkToggle. rewrite toggle_request_eq.
      rewrite Hflag. simpl. eexists. reflexivity. }
  for_each_handler Hgoal.
Qed.

Lemma toggle_request_by_pretoggle_flag_witness :
  Forall (λ handler,
    let call := Request POST "/events/1/bookmark" None in
    sent (run (handler (Sample.event_item 1 false))
              (Sample.page_world [Sample.event_item 1 false])).2 = [call] ∧
    ∃ k, (run (handler (Sample.event_item 1 false))
              (Sample.page_world [Sample.event_item 1 false])).1 = Suspended call k)
    toggle_handlers.
Proof.
  apply (toggle_request_by_pretoggle_flag
           (Sample.page_world [Sample.event_item 1 false])
           (Sample.event_item 1 false) false).
  reflexivity.
Defined.

(** C6. A toggle whose request succeeds: the success path changes
    nothing (the world is the one left by the optimistic patch and
    the request), the collection keeps its length and order, items
    with another id are untouched, and [event] carries the flag
    [negb f]. *)
Theorem toggle_success_keeps_optimistic_state w event (f : bool)
    (data : list Js.obj) :
  event !! "isBookmarked" = Some (Js.VBool f) →
  Forall (λ handler,
    let r := run_settled (handler event) (Fulfilled data) w in
    let final := events (state r.2) in
    r = (Returned tt, (run (handler event) w).2) ∧
    console r.2 = console w ∧
    length final = length (events (state w)) ∧
    (∀ (n : nat) e, events (state w) !! n = Some e →
       Js.get e "id" ≠ Js.get event "id" → final !! n = Some e) ∧
    (∀ n : nat, events (state w) !! n = Some event →
       final !! n = Some (<["isBookmarked" := Js.VBool (negb f)]> event)))
    toggle_handlers.
Proof.
  intros Hflag.
  assert (Hgoal :
    let r := run_settled (EventListPage.handleBookmarkToggle event)
               (Fulfilled data) w in
    let final := events (state r.2) in
    r = (Returned tt, (run (EventListPage.handleBookmarkToggle event) w).2) ∧
    console r.2 = console w ∧
    length final = length (events (state w)) ∧
    (∀ (n : nat) e, events (state w) !! n = Some e →
       Js.get e "id" ≠ Js.get event "id" → final !! n = Some e) ∧
    (∀ n : nat, events (state w) !! n = Some event →
       final !! n = Some (<["isBookmarked" := Js.VBool (negb f)]> event))).
  { cbv zeta. rewrite toggle_fulfilled, toggle_started. simpl.
    split; [done|]. split; [done|]. split; [apply flip_bookmark_length|].
    split.
    - intros n e Hn Hid. rewrite flip_bookmark_lookup, Hn. simpl.
      by rewrite flip_item_other.
    - intros n Hn. rewrite flip_bookmark_lookup, Hn. simpl.
      rewrite flip_item_target by done.
      by rewrite (get_of_lookup _ _ _ Hflag). }
  for_each_handler Hgoal.
Qed.

Lemma toggle_success_keeps_optimistic_state_witness :
  Forall (λ handler,
    let w := Sample.page_world [Sample.event_item 1 false; Sample.event_item 2 true] in
    let event := Sample.event_item 1 false in
    let r := run_settled (handler event) (Fulfilled []) w in
    let final := events (state r.2) in
    r = (Returned tt, (run (handler event) w).2) ∧
    console r.2 = console w ∧
    length final = length (events (state w)) ∧
    (∀ (n : nat) e, events (state w) !! n = Some e →
       Js.get e "id" ≠ Js.get event "id" → final !! n = Some e) ∧
    (∀ n : nat, events (state w) !! n = Some event →
       final !! n = Some (<["isBookmarked" := Js.VBool (negb false)]> event)))
    toggle_handlers.
Proof.
  apply (toggle_success_keeps_optimistic_state
           (Sample.page_world [Sample.event_item 1 false; Sample.event_item 2 true])
           (Sample.event_item 1 false) false []).
  reflexivity.
Defined.

End Toggle.

(** ** Bookmark removal *)

Section Removal.

Implicit Types (event other e : Js.obj) (l : list Js.obj) (err : error).
Implicit Types (w : world list_page (list Js.obj)).

Lemma remove_started event w :
  (run (BookmarksPage.handleRemoveBookmark event) w).2 =
  send (api_delete (bookmark_url event))
       (with_state (setEvents (drop_event event)) w).
Proof. reflexivity. Qed.

Lemma remove_rejected event (other : list_page → list_page) err w :
  run_interleaved (BookmarksPage.handleRemoveBookmark event) other (Rejected err) w =
  (Returned tt,
   with_state (setEvents (add_back event))
     (log_error "Failed to remove bookmark" err
        (with_state other
           (send (api_delete (bookmark_url event))
                 (with_state (setEvents (drop_event event)) w))))).
Proof. reflexivity. Qed.

Lemma count_id_add_back event l :
  count_id event (add_back event l) = S (count_id event l).
Proof.
  unfold count_id, add_back. rewrite filter_app, length_app.
  rewrite filter_cons_True by done. simpl. lia.
Qed.

Lemma count_id_pos event e l :
  e ∈ l → Js.get e "id" = Js.get event "id" → (1 ≤ count_id event l)%nat.
Proof.
  intros He Hid. unfold count_id.
  assert (Hin : e ∈ filter (λ e, Js.get e "id" = Js.get event "id") l)
    by by apply list_elem_of_filter.
  destruct (filter _ l); [by apply not_elem_of_nil in Hin|simpl; lia].
Qed.

(** C3. Removal and its rollback: right after the handler is called
    the collection holds exactly the items with another id than
    [event]'s, in their order; when the request fails the collection
    is that one with [event], as captured, appended. *)
Theorem removal_then_rollback w event err :
  let removed := events (state (run (BookmarksPage.handleRemoveBookmark event) w).2) in
  let final := events (state (run_settled
                 (BookmarksPage.handleRemoveBookmark event) (Rejected err) w).2) in
  (∀ e, e ∈ removed ↔
        e ∈ events (state w) ∧ Js.get e "id" ≠ Js.get event "id") ∧
  removed `sublist_of` events (state w) ∧
  event ∈ final ∧
  final = (removed ++ [event])%list.
Proof.
  cbv zeta. rewrite run_settled_interleaved, remove_rejected, remove_started.
  simpl. split; [|split; [|split]].
  - intros e. apply elem_of_drop_event.
  - apply sublist_filter.
  - unfold add_back. apply elem_of_app. right. apply list_elem_of_here.
  - reflexivity.
Qed.

(** C10. The rollback of a removal appends without looking: if an
    item with the id of [event] is in the collection when the request
    fails ([other] is whatever happened since the optimistic
    removal), the result is that collection with [event] appended,
    holds one more item with that id, at least two, and its ids are
    no longer unique. *)
Theorem removal_rollback_duplicates w event dup (other : list_page → list_page) err :
  let current := events (other (setEvents (drop_event event) (state w))) in
  let final := events (state (run_interleaved
                 (BookmarksPage.handleRemoveBookmark event) other (Rejected err) w).2) in
  dup ∈ current →
  Js.get dup "id" = Js.get event "id" →
  final = (current ++ [event])%list ∧
  count_id event final = S (count_id event current) ∧
  (2 ≤ count_id event final)%nat ∧
  ¬ unique_ids final.
Proof.
  cbv zeta. rewrite remove_rejected. simpl. intros Hdup Hid.
  split; [done|]. split; [apply count_id_add_back|]. split.
  - rewrite count_id_add_back.
    pose proof (count_id_pos event dup _ Hdup Hid). lia.
  - unfold unique_ids, add_back. rewrite map_app.
    intros (_ & Hdisj & _)%NoDup_app.
    apply (Hdisj (Js.get event "id")).
    + rewrite <- Hid. apply list_elem_of_In, (in_map (λ e, Js.get e "id")).
      by apply list_elem_of_In.
    + apply list_elem_of_here.
Qed.

Lemma removal_rollback_duplicates_witness :
  let w := Sample.page_world [Sample.bookmark_item 5; Sample.bookmark_item 9] in
  let event := Sample.bookmark_item 5 in
  let other := setEvents (λ l, Sample.bookmark_item 5 :: l) in
  let final := events (state (run_interleaved
                 (BookmarksPage.handleRemoveBookmark event) other
                 (Rejected Sample.network_error) w).2) in
  final = [Sample.bookmark_item 5; Sample.bookmark_item 9; Sample.bookmark_item 5] ∧
  count_id event final = 2%nat ∧
  (2 ≤ count_id event final)%nat ∧
  ¬ unique_ids final.
Proof.
  apply (removal_rollback_duplicates
           (Sample.page_world [Sample.bookmark_item 5; Sample.bookmark_item 9])
           (Sample.bookmark_item 5) (Sample.bookmark_item 5)
           (setEvents (λ l, Sample.bookmark_item 5 :: l)) Sample.network_error).
  - apply list_elem_of_here.
  - reflexivity.
Defined.

End Removal.

(** ** Loading the lists *)

Section Fetch.

Implicit Types (err : error) (data : list Js.obj).
Implicit Types (w : world list_page (list Js.obj)).
Implicit Types (wn : world MainApp.t (list Js.obj)).

Lemma fetchEvents_rejected err w :
  run_settled EventListPage.fetchEvents (Rejected err) w =
  (Returned tt,
   with_state (setIsLoading false)
     (log_error "Error fetching events:" err
        (send (api_get "/events") (with_state (setIsLoading true) w)))).
Proof. reflexivity. Qed.

Lemma fetchEvents_fulfilled data w :
  run_settled EventListPage.fetchEvents (Fulfilled data) w =
  (Returned tt,
   with_state (setIsLoading false)
     (with_state (setEvents (λ _, data))
        (send (api_get "/events") (with_state (setIsLoading true) w)))).
Proof. reflexivity. Qed.

(** The copy with [finally] settles as the one without. *)
Lemma EventsPage_fetchEvents_settled (s : settlement (list Js.obj)) w :
  run_settled EventsPage.fetchEvents s w =
  run_settled EventListPage.fetchEvents s w.
Proof. destruct s; reflexivity. Qed.

Lemma fetchBookmarkedEvents_rejected err w :
  run_settled BookmarksPage.fetchBookmarkedEvents (Rejected err) w =
  (Returned tt,
   with_state (setIsLoading false)
     (log_error "Error fetching bookmarks:" err
        (send (api_get "/events/my-bookmarks") (with_state (setIsLoading true) w)))).
Proof. reflexivity. Qed.

Lemma fetchNotifications_rejected err wn :
  run_settled MainApp.fetchNotifications (Rejected err) wn =
  (Returned tt,
   log_error "Error fetching notifications:" err
     (send (api_get "/events/notifications") wn)).
Proof. reflexivity. Qed.

Lemma fetchNotifications_fulfilled data wn :
  run_settled MainApp.fetchNotifications (Fulfilled data) wn =
  (Returned tt,
   with_state (MainApp.setNotifications data)
     (send (api_get "/events/notifications") wn)).
Proof. reflexivity. Qed.

Lemma render_loaded (l : list Js.obj) :
  render (ListPage l false) =
  if decide (l = []) then ShowEmpty else ShowCards l.
Proof. by destruct l. Qed.

End Fetch.

Section FetchFailure.

Implicit Types (err : error) (data : list Js.obj).
Implicit Types (w : world list_page (list Js.obj)).
Implicit Types (wn : world MainApp.t (list Js.obj)).

(** C7, as the code has it. A failed list fetch is caught and
    logged once, nothing propagates (the function returns, no
    rejection is left unhandled), and the list held before the fetch
    is kept: the page shows the empty-list line exactly when that
    list was empty, as on the first load, and the old cards
    otherwise. *)
Theorem list_fetch_failure_keeps_list w wn err :
  Forall (λ '(fetch, msg),
    let r := run_settled fetch (Rejected err) w in
    r.1 = Returned tt ∧
    unhandled r.2 = unhandled w ∧
    console r.2 = (console w ++ [(msg, err)])%list ∧
    events (state r.2) = events (state w) ∧
    render (state r.2) =
      if decide (events (state w) = []) then ShowEmpty
      else ShowCards (events (state w)))
    page_fetchers ∧
  (let r := run_settled MainApp.fetchNotifications (Rejected err) wn in
   r.1 = Returned tt ∧
   unhandled r.2 = unhandled wn ∧
   console r.2 = (console wn ++ [("Error fetching notifications:", err)])%list ∧
   state r.2 = state wn ∧
   NotificationsPage.render (state r.2) = NotificationsPage.render (state wn)).
Proof.
  split.
  - unfold page_fetchers.
    repeat apply List.Forall_cons; try apply List.Forall_nil; cbv zeta;
      rewrite ?EventsPage_fetchEvents_settled, ?fetchEvents_rejected,
        ?fetchBookmarkedEvents_rejected; simpl;
      (repeat split; try done); exact (render_loaded (events (state w))).
  - cbv zeta. rewrite fetchNotifications_rejected. simpl. by repeat split.
Qed.

(** C7, as stated, fails: after a first load the Refresh of
    EventsPage can fail, and the page keeps showing the cards it
    had; likewise a failed re-fetch of the notifications keeps the
    rows shown. *)
Lemma list_fetch_failure_not_empty :
  render (state (run_settled EventsPage.fetchEvents
                   (Rejected Sample.network_error)
                   (Sample.page_world [Sample.event_item 1 false])).2)
    ≠ ShowEmpty ∧
  NotificationsPage.render
    (state (run_settled MainApp.fetchNotifications
              (Rejected Sample.network_error)
              (Sample.app_world [Sample.notification 7 false])).2)
    ≠ None.
Proof. split; vm_compute; discriminate. Qed.

End FetchFailure.

(** ** Marking a notification read *)

Section MarkRead.

Implicit Types (err : error) (data fetched : list Js.obj) (id : Js.value).
Implicit Types (wn : world MainApp.t (list Js.obj)).

Lemma settle_parked {S R} (w : world S R) (rq : request)
    (k : settlement R → async S R unit) (s : settlement R) :
  settle_background (length (background w)) s (park rq k w) =
  dropped (run_to_await (k s) w).1 (run_to_await (k s) w).2.
Proof.
  unfold settle_background, park. simpl.
  rewrite (list_lookup_middle (background w) [] (rq, k) _ eq_refl).
  rewrite (delete_middle (background w) [] (rq, k)), app_nil_r.
  destruct w as [st c sn b u]. simpl.
  by destruct (run_to_await (k s) _).
Qed.

Lemma mark_read_rejected id err wn :
  run_settled (NotificationsPage.handleMarkRead id) (Rejected err) wn =
  (Returned tt,
   log_error "Error marking notification read:" err
     (send (api_put (NotificationsPage.mark_read_url id)) wn)).
Proof. reflexivity. Qed.

(** After the write succeeded the re-fetch is under way, parked
    behind the handler that returned; [k] is what runs when it
    settles. *)
Lemma mark_read_fulfilled id data wn :
  ∃ k,
    run_settled (NotificationsPage.handleMarkRead id) (Fulfilled data) wn =
    (Returned tt,
     park (api_get "/events/notifications") k
       (send (api_get "/events/notifications")
          (send (api_put (NotificationsPage.mark_read_url id)) wn))) ∧
    (∀ fetched w', run_to_await (k (Fulfilled fetched)) w' =
                   (Returned tt, with_state (MainApp.setNotifications fetched) w')) ∧
    (∀ err w', run_to_await (k (Rejected err)) w' =
               (Returned tt, log_error "Error fetching notifications:" err w')).
Proof. eexists. split; [reflexivity|]. split; reflexivity. Qed.

(** C4. Mark-read is not optimistic.  Called, the handler issues the
    PUT and waits, with state and console as they were.  If the PUT
    fails, the handler returns, the state (hence the list and every
    [is_read]) is untouched, the error is logged once and no re-fetch
    is issued.  If the PUT succeeds, the state is still untouched
    while the GET of the whole list is under way; the list becomes
    the fetched one when that GET succeeds, and stays as it was, with
    one log line, when it fails. *)
Theorem mark_read_changes_list_only_after_success id wn :
  let put := api_put (NotificationsPage.mark_read_url id) in
  let get := api_get "/events/notifications" in
  (∃ k, run (NotificationsPage.handleMarkRead id) wn = (Suspended put k, send put wn)) ∧
  (∀ err,
     let r := run_settled (NotificationsPage.handleMarkRead id) (Rejected err) wn in
     r.1 = Returned tt ∧
     state r.2 = state wn ∧
     console r.2 = (console wn ++ [("Error marking notification read:", err)])%list ∧
     sent r.2 = (sent wn ++ [put])%list ∧
     background r.2 = background wn ∧
     unhandled r.2 = unhandled wn) ∧
  (∀ data,
     let r := run_settled (NotificationsPage.handleMarkRead id) (Fulfilled data) wn in
     r.1 = Returned tt ∧
     state r.2 = state wn ∧
     console r.2 = console wn ∧
     sent r.2 = (sent wn ++ [put; get])%list ∧
     (∃ k, background r.2 = (background wn ++ [(get, k)])%list) ∧
     (∀ fetched,
        MainApp.notifications
          (state (settle_background (length (background wn)) (Fulfilled fetched) r.2))
        = fetched) ∧
     (∀ err,
        let w' := settle_background (length (background wn)) (Rejected err) r.2 in
        state w' = state wn ∧
        console w' = (console wn ++ [("Error fetching notifications:", err)])%list ∧
        unhandled w' = unhandled wn)).
Proof.
  cbv zeta. split; [eexists; reflexivity|]. split.
  - intros err. rewrite mark_read_rejected. simpl. by repeat split.
  - intros data.
    destruct (mark_read_fulfilled id data wn) as (k & -> & Hok & Hfail).
    simpl. split; [done|]. split; [done|]. split; [done|].
    split; [by rewrite <- app_assoc|]. split; [by eexists|]. split.
    + intros fetched.
      rewrite (settle_parked (send _ (send _ wn))), Hok. reflexivity.
    + intros err.
      rewrite (settle_parked (send _ (send _ wn))), Hfail. simpl.
      by repeat split.
Qed.

End MarkRead.

(** ** Failures of the mutations *)

Section MutationFailure.

Implicit Types (event : Js.obj) (id : Js.value) (err : error).
Implicit Types (w : world list_page (list Js.obj)).
Implicit Types (wn : world MainApp.t (list Js.obj)).

(** C8. Whatever the failure of the remote call of a toggle, a
    removal or a mark-read: the handler itself does not throw (it
    issues its request and waits), the failure handler returns
    normally, no rejection is left unhandled, and the console gets
    exactly the one line of that handler. *)
Theorem mutation_failures_absorbed w wn event id err :
  Forall (λ '(handler, msg),
    (∃ rq k, (run handler w).1 = Suspended rq k) ∧
    let r := run_settled handler (Rejected err) w in
    r.1 = Returned tt ∧
    unhandled r.2 = unhandled w ∧
    console r.2 = (console w ++ [(msg, err)])%list)
    (page_mutations event) ∧
  (∃ rq k, (run (NotificationsPage.handleMarkRead id) wn).1 = Suspended rq k) ∧
  (let r := run_settled (NotificationsPage.handleMarkRead id) (Rejected err) wn in
   r.1 = Returned tt ∧
   unhandled r.2 = unhandled wn ∧
   console r.2 = (console wn ++ [("Error marking notification read:", err)])%list).
Proof.
  split; [|split].
  - unfold page_mutations.
    repeat apply List.Forall_cons; try apply List.Forall_nil; cbv zeta.
    + split.
      * unfold EventListPage.handleBookmarkToggle. rewrite toggle_request_eq.
        do 2 eexists. reflexivity.
      * rewrite run_settled_interleaved, toggle_rejected. simpl. by repeat split.
    + rewrite EventsPage_toggle_same. split.
      * unfold EventListPage.handleBookmarkToggle. rewrite toggle_request_eq.
        do 2 eexists. reflexivity.
      * rewrite run_settled_interleaved, toggle_rejected. simpl. by repeat split.
    + split.
      * do 2 eexists. reflexivity.
      * rewrite run_settled_interleaved, remove_rejected. simpl. by repeat split.
  - do 2 eexists. reflexivity.
  - cbv zeta. rewrite mark_read_rejected. simpl. by repeat split.
Qed.

End MutationFailure.

(** ** The session store *)

Section Session.

Import AuthProvider.

Implicit Types (err : error) (identity : Js.obj) (username password : string).
Implicit Types (w : world AuthProvider.t Js.obj).

Lemma checkSession_fulfilled identity w :
  run_settled checkSession (Fulfilled identity) w =
  (Returned tt,
   with_state (AuthProvider.setIsLoading false)
     (with_state (setUser (Some identity)) (send (api_get "/auth/check") w))).
Proof. reflexivity. Qed.

Lemma checkSession_rejected err w :
  run_settled checkSession (Rejected err) w =
  (Returned tt,
   with_state (AuthProvider.setIsLoading false)
     (with_state (setUser None) (send (api_get "/auth/check") w))).
Proof. reflexivity. Qed.

Lemma login_fulfilled username password identity w :
  run_settled (login username password) (Fulfilled identity) w =
  (Returned identity,
   with_state (setUser (Some identity))
     (send (api_post "/auth/login" (Some (credentials username password))) w)).
Proof. reflexivity. Qed.

Lemma register_fulfilled username password identity w :
  run_settled (register username password) (Fulfilled identity) w =
  (Returned identity,
   with_state (setUser (Some identity))
     (send (api_post "/auth/register" (Some (credentials username password))) w)).
Proof. reflexivity. Qed.

(** A failed login or register is not caught here: it reaches the caller. *)
Lemma login_rejected username password err w :
  run_settled (login username password) (Rejected err) w =
  (Threw err, send (api_post "/auth/login" (Some (credentials username password))) w).
Proof. reflexivity. Qed.

Lemma register_rejected username password err w :
  run_settled (register username password) (Rejected err) w =
  (Threw err, send (api_post "/auth/register" (Some (credentials username password))) w).
Proof. reflexivity. Qed.

Lemma logout_fulfilled (data : Js.obj) w :
  run_settled logout (Fulfilled data) w =
  (Returned tt, with_state (setUser None) (send (api_post "/auth/logout" None) w)).
Proof. reflexivity. Qed.

Lemma logout_rejected err w :
  run_settled logout (Rejected err) w =
  (Threw err, send (api_post "/auth/logout" None) w).
Proof. reflexivity. Qed.

(** C9, as the code has it. The store starts unknown. From
    unknown, the session check ends in authenticated with the
    identity returned, or in anonymous when it fails.  From
    anonymous, a login or register that succeeds ends in
    authenticated with the identity returned.  From authenticated, a
    logout whose call succeeds ends in anonymous; a logout whose call
    fails leaves the session authenticated and rejects. *)
Theorem session_store_transitions w identity (data : Js.obj) username password err :
  session_of initial = Unknown ∧
  match session_of (state w) with
  | Unknown =>
      session_of (state (run_settled checkSession (Fulfilled identity) w).2)
        = Authenticated identity ∧
      session_of (state (run_settled checkSession (Rejected err) w).2)
        = Anonymous
  | Anonymous =>
      session_of (state (run_settled (login username password)
                           (Fulfilled identity) w).2)
        = Authenticated identity ∧
      session_of (state (run_settled (register username password)
                           (Fulfilled identity) w).2)
        = Authenticated identity
  | Authenticated u =>
      session_of (state (run_settled logout (Fulfilled data) w).2) = Anonymous ∧
      run_settled logout (Rejected err) w =
        (Threw err, send (api_post "/auth/logout" None) w) ∧
      session_of (state (run_settled logout (Rejected err) w).2) = Authenticated u
  end.
Proof.
  split; [reflexivity|].
  rewrite checkSession_fulfilled, checkSession_rejected, login_fulfilled,
    register_fulfilled, logout_fulfilled, logout_rejected.
  destruct w as [[u loading] c sn b uh]. unfold session_of. simpl.
  destruct loading; [done|]. by destruct u.
Qed.

(** C9, as stated, fails for logout: with the session authenticated
    and the logout call rejected, the store is still authenticated,
    not anonymous. *)
Lemma logout_failure_stays_authenticated :
  let w := Sample.auth_world (Store (Some (Sample.identity "ada")) false) in
  session_of (state w) = Authenticated (Sample.identity "ada") ∧
  session_of (state (run_settled logout (Rejected Sample.network_error) w).2)
    ≠ Anonymous.
Proof. split; [reflexivity|]. vm_compute. discriminate. Qed.

End Session.

(** ** Scenarios *)

Section Scenarios.

Import Sample.

(** Toggle id 1 in [{1,false},{2,true}]: first [{1,true},{2,true}],
    and [{1,false},{2,true}] again once the call is rejected. *)
Example scenario_toggle_rejected :
  let w := page_world [event_item 1 false; event_item 2 true] in
  events (state (run (EventListPage.handleBookmarkToggle (event_item 1 false)) w).2)
    = [event_item 1 true; event_item 2 true] ∧
  events (state (run_settled (EventListPage.handleBookmarkToggle (event_item 1 false))
                   (Rejected network_error) w).2)
    = [event_item 1 false; event_item 2 true].
Proof. split; vm_compute; reflexivity. Qed.

(** Remove id 5 from [{5},{9}]: first [{9}], and both again, 5 last,
    once the call is rejected. *)
Example scenario_remove_rejected :
  let w := page_world [bookmark_item 5; bookmark_item 9] in
  events (state (run (BookmarksPage.handleRemoveBookmark (bookmark_item 5)) w).2)
    = [bookmark_item 9] ∧
  events (state (run_settled (BookmarksPage.handleRemoveBookmark (bookmark_item 5))
                   (Rejected network_error) w).2)
    = [bookmark_item 9; bookmark_item 5].
Proof. split; vm_compute; reflexivity. Qed.

(** The round trip of a failed toggle leans on the ids being unique:
    the rollback writes the captured flag into every item with that
    id, so a second item with the same id and another flag does not
    get its own flag back. *)
Remark toggle_rollback_needs_unique_ids :
  let l := [event_item 1 false; event_item 1 true] in
  events (state (run_settled (EventListPage.handleBookmarkToggle (event_item 1 false))
                   (Rejected network_error) (page_world l)).2)
    = [event_item 1 false; event_item 1 false].
Proof. vm_compute. reflexivity. Qed.

(** An item that came without the flag gets an own [isBookmarked]
    property, [undefined], from the rollback. *)
Remark toggle_rollback_adds_missing_flag :
  events (state (run_settled (EventListPage.handleBookmarkToggle (bookmark_item 1))
                   (Rejected network_error) (page_world [bookmark_item 1])).2)
    = [<["isBookmarked" := Js.VUndefined]> (bookmark_item 1)].
Proof. vm_compute. reflexivity. Qed.

(** A mark-read whose write and re-fetch both succeed: two requests,
    and the list shown is the fetched one. *)
Example scenario_mark_read :
  let w := app_world [notification 7 false] in
  let r := run_settled (NotificationsPage.handleMarkRead (Js.VNum 7)) (Fulfilled []) w in
  sent r.2 = [api_put "/events/notifications/7/read"; api_get "/events/notifications"] ∧
  MainApp.notifications (state r.2) = [notification 7 false] ∧
  MainApp.notifications (state (settle_background 0 (Fulfilled [notification 7 true]) r.2))
    = [notification 7 true].
Proof. repeat split; vm_compute; reflexivity. Qed.

End Scenarios.

(** * Further properties of the handlers *)

(** ** Toggles: what they touch, and how they overlap *)

Section ToggleMore.

Implicit Types (event other e : Js.obj) (l : list Js.obj) (err : error).
Implicit Types (w : world list_page (list Js.obj)).

Lemma flip_item_frame event e (p : string) :
  p ≠ "isBookmarked" → flip_item event e !! p = e !! p.
Proof.
  intros Hp. unfold flip_item. destruct (Js.strict_eq _ _); [|done].
  unfold Js.spread_set. by rewrite lookup_insert_ne.
Qed.

Lemma revert_item_frame event e (p : string) :
  p ≠ "isBookmarked" → revert_item event e !! p = e !! p.
Proof.
  intros Hp. unfold revert_item. destruct (Js.strict_eq _ _); [|done].
  unfold Js.spread_set. by rewrite lookup_insert_ne.
Qed.

Lemma revert_item_other event e :
  Js.get e "id" ≠ Js.get event "id" → revert_item event e = e.
Proof. intros Hne. unfold revert_item. by apply strict_eq_false in Hne as ->. Qed.

Lemma flip_bookmark_ids event l :
  map (λ e, Js.get e "id") (flip_bookmark event l) = map (λ e, Js.get e "id") l.
Proof.
  unfold flip_bookmark. rewrite map_map. apply map_ext. intros e.
  apply flip_item_id.
Qed.

Lemma revert_bookmark_ids event l :
  map (λ e, Js.get e "id") (revert_bookmark event l) = map (λ e, Js.get e "id") l.
Proof.
  unfold revert_bookmark. rewrite map_map. apply map_ext. intros e.
  apply revert_item_id.
Qed.

Lemma revert_bookmark_lookup event l (n : nat) :
  revert_bookmark event l !! n = revert_item event <$> l !! n.
Proof. unfold revert_bookmark. apply list_lookup_fmap. Qed.

(** A toggle, whether its request succeeds or fails, keeps the ids
    of the collection in their order, leaves items with another id
    as they are, and in the items it patches changes no property
    other than [isBookmarked]. *)
Theorem toggle_touches_only_the_flag w event (s : settlement (list Js.obj)) :
  Forall (λ handler,
    let final := events (state (run_settled (handler event) s w).2) in
    map (λ e, Js.get e "id") final = map (λ e, Js.get e "id") (events (state w)) ∧
    ∀ (n : nat) e, events (state w) !! n = Some e →
      ∃ e', final !! n = Some e' ∧
            (Js.get e "id" ≠ Js.get event "id" → e' = e) ∧
            ∀ p : string, p ≠ "isBookmarked" → e' !! p = e !! p)
    toggle_handlers.
Proof.
  assert (Hgoal :
    let final := events (state (run_settled
                   (EventListPage.handleBookmarkToggle event) s w).2) in
    map (λ e, Js.get e "id") final = map (λ e, Js.get e "id") (events (state w)) ∧
    ∀ (n : nat) e, events (state w) !! n = Some e →
      ∃ e', final !! n = Some e' ∧
            (Js.get e "id" ≠ Js.get event "id" → e' = e) ∧
            ∀ p : string, p ≠ "isBookmarked" → e' !! p = e !! p).
  { cbv zeta. destruct s as [data|err].
    - rewrite toggle_fulfilled, toggle_started. simpl.
      split; [apply flip_bookmark_ids|]. intros n e Hn.
      exists (flip_item event e). rewrite flip_bookmark_lookup, Hn.
      split; [done|]. split; [apply flip_item_other|].
      intros p Hp. by apply flip_item_frame.
    - rewrite run_settled_interleaved, toggle_rejected. simpl.
      split; [by rewrite revert_bookmark_ids, flip_bookmark_ids|].
      intros n e Hn. exists (revert_item event (flip_item event e)).
      rewrite revert_bookmark_lookup, flip_bookmark_lookup, Hn.
      split; [done|]. split.
      + intros Hne. rewrite flip_item_other by done. by apply revert_item_other.
      + intros p Hp. rewrite revert_item_frame by done.
        by apply flip_item_frame. }
  for_each_handler Hgoal.
Qed.

(** The rollback is absolute: whatever happened to the collection
    between the optimistic flip and the failure ([other]), the
    failure handler keeps its length and ids, leaves items with
    another id alone and writes the flag the handler was called with
    into every item with the id of [event]. *)
Theorem rollback_writes_captured_flag w event (other : list_page → list_page) err :
  Forall (λ handler,
    let current := events (other (setEvents (flip_bookmark event) (state w))) in
    let final := events (state (run_interleaved (handler event) other
                                  (Rejected err) w).2) in
    map (λ e, Js.get e "id") final = map (λ e, Js.get e "id") current ∧
    (∀ e, e ∈ final → Js.get e "id" = Js.get event "id" →
          e !! "isBookmarked" = Some (Js.get event "isBookmarked")) ∧
    (∀ (n : nat) e, current !! n = Some e →
          Js.get e "id" ≠ Js.get event "id" → final !! n = Some e))
    toggle_handlers.
Proof.
  assert (Hgoal :
    let current := events (other (setEvents (flip_bookmark event) (state w))) in
    let final := events (state (run_interleaved
                   (EventListPage.handleBookmarkToggle event) other
                   (Rejected err) w).2) in
    map (λ e, Js.get e "id") final = map (λ e, Js.get e "id") current ∧
    (∀ e, e ∈ final → Js.get e "id" = Js.get event "id" →
          e !! "isBookmarked" = Some (Js.get event "isBookmarked")) ∧
    (∀ (n : nat) e, current !! n = Some e →
          Js.get e "id" ≠ Js.get event "id" → final !! n = Some e)).
  { cbv zeta. rewrite toggle_rejected. simpl.
    split; [apply revert_bookmark_ids|]. split.
    - intros e He Hid. unfold revert_bookmark in He.
      apply list_elem_of_In, in_map_iff in He as (x & <- & _).
      rewrite revert_item_id in Hid. rewrite revert_item_target by done.
      unfold Js.spread_set. apply lookup_insert_eq.
    - intros n e Hn Hne. rewrite revert_bookmark_lookup, Hn. simpl.
      by rewrite revert_item_other. }
  for_each_handler Hgoal.
Qed.

Lemma flip_item_twice event e (b : bool) :
  e !! "isBookmarked" = Some (Js.VBool b) →
  flip_item event (flip_item event e) = e.
Proof.
  intros Hb.
  destruct (decide (Js.get e "id" = Js.get event "id")) as [Heq|Hne].
  - rewrite (flip_item_target event (flip_item event e))
      by by rewrite flip_item_id.
    rewrite flip_item_target by done.
    rewrite get_spread_set_eq, spread_set_twice.
    rewrite (get_of_lookup _ _ _ Hb). rewrite !not_bool, negb_involutive.
    by apply spread_set_same.
  - rewrite (flip_item_other event e) by done. by apply flip_item_other.
Qed.

(** Two clicks on the same rendered card (the same captured
    [event]): when the items with that id hold a boolean flag, the
    collection is back to what it was, and the same request has been
    sent twice, chosen both times by the captured flag. *)
Theorem double_toggle_same_request w event :
  (∀ e, e ∈ events (state w) → Js.get e "id" = Js.get event "id" →
        ∃ b : bool, e !! "isBookmarked" = Some (Js.VBool b)) →
  Forall (λ handler,
    let w2 := (run (handler event) (run (handler event) w).2).2 in
    let call := Request (if Js.truthy (Js.get event "isBookmarked")
                         then DELETE else POST) (bookmark_url event) None in
    events (state w2) = events (state w) ∧
    sent w2 = (sent w ++ [call; call])%list)
    toggle_handlers.
Proof.
  intros Hbool.
  assert (Hgoal :
    let w2 := (run (EventListPage.handleBookmarkToggle event)
                 (run (EventListPage.handleBookmarkToggle event) w).2).2 in
    let call := Request (if Js.truthy (Js.get event "isBookmarked")
                         then DELETE else POST) (bookmark_url event) None in
    events (state w2) = events (state w) ∧
    sent w2 = (sent w ++ [call; call])%list).
  { cbv zeta. rewrite !toggle_started. simpl. split.
    - unfold flip_bookmark. rewrite map_map.
      rewrite <- (map_id (events (state w))) at 2.
      apply map_ext_in. intros e He%list_elem_of_In.
      destruct (decide (Js.get e "id" = Js.get event "id")) as [Heq|Hne].
      + destruct (Hbool e He Heq) as [b Hb]. by apply (flip_item_twice _ _ b).
      + rewrite (flip_item_other event e) by done. by apply flip_item_other.
    - by rewrite <- app_assoc. }
  for_each_handler Hgoal.
Qed.

Lemma double_toggle_same_request_witness :
  Forall (λ handler,
    let w := Sample.page_world [Sample.event_item 1 false; Sample.event_item 2 true] in
    let event := Sample.event_item 1 false in
    let w2 := (run (handler event) (run (handler event) w).2).2 in
    let call := Request POST "/events/1/bookmark" None in
    events (state w2) = events (state w) ∧
    sent w2 = (sent w ++ [call; call])%list)
    toggle_handlers.
Proof.
  apply (double_toggle_same_request
           (Sample.page_world [Sample.event_item 1 false; Sample.event_item 2 true])
           (Sample.event_item 1 false)).
  intros e He _.
  apply elem_of_cons in He as [->|He]; [by exists false|].
  apply elem_of_cons in He as [->|He]; [by exists true|].
  by apply not_elem_of_nil in He.
Defined.

End ToggleMore.

Section ToggleOverlap.

Implicit Types (a b e : Js.obj) (l : list Js.obj).
Implicit Types (w : world list_page (list Js.obj)).

(** Two patches that each leave the id and the items of other ids
    alone commute when they aim at different ids. *)
Lemma patches_commute (f g : Js.obj → Js.obj) a b l :
  Js.get a "id" ≠ Js.get b "id" →
  (∀ e, Js.get (f e) "id" = Js.get e "id") →
  (∀ e, Js.get e "id" ≠ Js.get a "id" → f e = e) →
  (∀ e, Js.get (g e) "id" = Js.get e "id") →
  (∀ e, Js.get e "id" ≠ Js.get b "id" → g e = e) →
  map f (map g l) = map g (map f l).
Proof.
  intros Hab Hfid Hf Hgid Hg. rewrite !map_map. apply map_ext. intros e.
  destruct (decide (Js.get e "id" = Js.get a "id")) as [Heq|Hne].
  - rewrite (Hg e) by congruence. rewrite (Hg (f e)); [done|].
    rewrite Hfid. congruence.
  - rewrite (Hf e) by done. apply Hf. by rewrite Hgid.
Qed.

Lemma toggle_overlap_events a b (sa sb : settlement (list Js.obj)) (first_a : bool) w :
  events (state (run_two (EventListPage.handleBookmarkToggle a)
                         (EventListPage.handleBookmarkToggle b) sa sb first_a w)) =
  let settle x (s : settlement (list Js.obj)) l :=
    match s with Fulfilled _ => l | Rejected _ => revert_bookmark x l end in
  let started := flip_bookmark b (flip_bookmark a (events (state w))) in
  if first_a then settle b sb (settle a sa started)
  else settle a sa (settle b sb started).
Proof. destruct sa, sb, first_a; reflexivity. Qed.

Lemma toggle_settled_events a (s : settlement (list Js.obj)) w :
  events (state (run_settled (EventListPage.handleBookmarkToggle a) s w).2) =
  match s with
  | Fulfilled _ => flip_bookmark a (events (state w))
  | Rejected _ => revert_bookmark a (flip_bookmark a (events (state w)))
  end.
Proof. destruct s; reflexivity. Qed.

(** Toggles of two items with different ids do not disturb each
    other: started one after the other and settled in either order,
    with any outcomes, they leave the collection that running the
    first to its end and then the second leaves. *)
Theorem independent_toggles_commute w a b (sa sb : settlement (list Js.obj)) :
  Js.get a "id" ≠ Js.get b "id" →
  Forall (λ handler,
    let overlapped first_a :=
      events (state (run_two (handler a) (handler b) sa sb first_a w)) in
    overlapped true = overlapped false ∧
    overlapped true =
      events (state (run_settled (handler b) sb
                       (run_settled (handler a) sa w).2).2))
    toggle_handlers.
Proof.
  intros Hab.
  assert (Hba : Js.get b "id" ≠ Js.get a "id") by congruence.
  assert (Hgoal :
    let overlapped first_a :=
      events (state (run_two (EventListPage.handleBookmarkToggle a)
                             (EventListPage.handleBookmarkToggle b)
                             sa sb first_a w)) in
    overlapped true = overlapped false ∧
    overlapped true =
      events (state (run_settled (EventListPage.handleBookmarkToggle b) sb
                       (run_settled (EventListPage.handleBookmarkToggle a) sa w).2).2)).
  { cbv beta zeta. rewrite !toggle_overlap_events, !toggle_settled_events.
    set (C := events (state w)).
    assert (Hrr : ∀ l, revert_bookmark b (revert_bookmark a l)
                       = revert_bookmark a (revert_bookmark b l)).
    { intros l. unfold revert_bookmark.
      apply (patches_commute _ _ b a); auto using revert_item_id, revert_item_other. }
    assert (Hfr : ∀ l, flip_bookmark b (revert_bookmark a l)
                       = revert_bookmark a (flip_bookmark b l)).
    { intros l. unfold revert_bookmark, flip_bookmark.
      apply (patches_commute _ _ b a); auto using revert_item_id, revert_item_other,
        flip_item_id, flip_item_other. }
    destruct sa, sb; simpl; split; try done; by rewrite ?Hrr, ?Hfr. }
  for_each_handler Hgoal.
Qed.

Lemma independent_toggles_commute_witness :
  Forall (λ handler,
    let w := Sample.page_world [Sample.event_item 1 false; Sample.event_item 2 true] in
    let a := Sample.event_item 1 false in
    let b := Sample.event_item 2 true in
    let sa := Rejected Sample.network_error in
    let sb := Fulfilled [] in
    let overlapped first_a :=
      events (state (run_two (handler a) (handler b) sa sb first_a w)) in
    overlapped true = overlapped false ∧
    overlapped true =
      events (state (run_settled (handler b) sb
                       (run_settled (handler a) sa w).2).2))
    toggle_handlers.
Proof.
  apply (independent_toggles_commute
           (Sample.page_world [Sample.event_item 1 false; Sample.event_item 2 true])
           (Sample.event_item 1 false) (Sample.event_item 2 true)
           (Rejected Sample.network_error) (Fulfilled [])).
  vm_compute. discriminate.
Defined.

End ToggleOverlap.

(** ** Removals: what the rollback gives back *)

Section RemovalMore.

Implicit Types (event e : Js.obj) (l : list Js.obj) (err : error).
Implicit Types (w : world list_page (list Js.obj)).

Lemma drop_event_count event l :
  (length (drop_event event l) + count_id event l = length l)%nat.
Proof.
  unfold drop_event, count_id. induction l as [|x l IH]; [done|].
  rewrite !filter_cons.
  destruct (decide (Js.strict_ne _ _ = true)) as [Hne|Heq];
    destruct (decide (Js.get x "id" = Js.get event "id")) as [Hid|Hid];
    simpl; try lia.
  - by apply strict_ne_true in Hne.
  - exfalso. apply Heq. by apply strict_ne_true.
Qed.

Lemma id_not_in_drop_event event l :
  Js.get event "id" ∉ map (λ e, Js.get e "id") (drop_event event l).
Proof.
  intros Hin. apply list_elem_of_In, in_map_iff in Hin as (x & Hx & Hin).
  apply list_elem_of_In, elem_of_drop_event in Hin as [_ Hne]. done.
Qed.

Lemma drop_event_twice event l :
  drop_event event (drop_event event l) = drop_event event l.
Proof. unfold drop_event. by apply list_filter_filter_l. Qed.

Lemma count_id_drop_event event l : count_id event (drop_event event l) = 0%nat.
Proof.
  pose proof (drop_event_count event (drop_event event l)) as H.
  rewrite drop_event_twice in H. lia.
Qed.

(** With ids unique and [event] in the collection, a removal whose
    request fails ends with the same items as before, possibly in
    another order, and ids still unique. *)
Theorem removal_rollback_permutes w event err :
  unique_ids (events (state w)) →
  event ∈ events (state w) →
  let final := events (state (run_settled
                 (BookmarksPage.handleRemoveBookmark event) (Rejected err) w).2) in
  final ≡ₚ events (state w) ∧ unique_ids final.
Proof.
  intros Hu Hin. cbv zeta.
  rewrite run_settled_interleaved, remove_rejected. simpl.
  set (C := events (state w)) in *.
  assert (Hfinal : unique_ids (add_back event (drop_event event C))).
  { unfold unique_ids, add_back. rewrite map_app. apply NoDup_app.
    split; [by apply drop_event_unique|]. split; [|apply NoDup_singleton].
    intros x Hx ->%list_elem_of_singleton. by apply id_not_in_drop_event in Hx. }
  split; [|done]. apply NoDup_Permutation.
  - by apply (NoDup_fmap_1 (λ e, Js.get e "id")).
  - by apply (NoDup_fmap_1 (λ e, Js.get e "id")).
  - intros e. unfold add_back.
    rewrite elem_of_app, elem_of_drop_event, list_elem_of_singleton. split.
    + intros [[He _]| ->]; done.
    + intros He.
      destruct (decide (Js.get e "id" = Js.get event "id")) as [Heq|Hne].
      * right. by apply (unique_ids_same_id C).
      * by left.
Qed.

Lemma removal_rollback_permutes_witness :
  let w := Sample.page_world [Sample.bookmark_item 5; Sample.bookmark_item 9] in
  let final := events (state (run_settled
                 (BookmarksPage.handleRemoveBookmark (Sample.bookmark_item 5))
                 (Rejected Sample.network_error) w).2) in
  final ≡ₚ [Sample.bookmark_item 5; Sample.bookmark_item 9] ∧ unique_ids final.
Proof.
  apply (removal_rollback_permutes
           (Sample.page_world [Sample.bookmark_item 5; Sample.bookmark_item 9])
           (Sample.bookmark_item 5) Sample.network_error).
  - apply (bool_decide_unpack _). vm_compute. reflexivity.
  - apply list_elem_of_here.
Defined.

(** Whatever the collection, a removal whose request fails takes away
    every item with the id of [event] and gives back one: the length
    afterwards, plus the number of items that had the id, is the
    length before plus one. *)
Theorem removal_rollback_length w event err :
  let final := events (state (run_settled
                 (BookmarksPage.handleRemoveBookmark event) (Rejected err) w).2) in
  (length final + count_id event (events (state w)) = S (length (events (state w))))%nat ∧
  count_id event final = 1%nat.
Proof.
  cbv zeta. rewrite run_settled_interleaved, remove_rejected. simpl. split.
  - unfold add_back. rewrite length_app. simpl.
    pose proof (drop_event_count event (events (state w))). lia.
  - by rewrite count_id_add_back, count_id_drop_event.
Qed.

Lemma remove_overlap_events event (sa sb : settlement (list Js.obj)) (first_a : bool) w :
  events (state (run_two (BookmarksPage.handleRemoveBookmark event)
                         (BookmarksPage.handleRemoveBookmark event)
                         sa sb first_a w)) =
  let back (s : settlement (list Js.obj)) l :=
    match s with Fulfilled _ => l | Rejected _ => add_back event l end in
  let started := drop_event event (drop_event event (events (state w))) in
  if first_a then back sb (back sa started) else back sa (back sb started).
Proof. destruct sa, sb, first_a; reflexivity. Qed.

(** Two overlapping removals of the same card: the item comes back
    once for each request that fails, in whatever order they settle;
    when both fail the collection ends with two copies. *)
Theorem overlapping_removals_add_back_each w event
    (sa sb : settlement (list Js.obj)) (first_a : bool) :
  let back (s : settlement (list Js.obj)) :=
    match s with Fulfilled _ => [] | Rejected _ => [event] end in
  let final := events (state (run_two (BookmarksPage.handleRemoveBookmark event)
                                      (BookmarksPage.handleRemoveBookmark event)
                                      sa sb first_a w)) in
  final = (drop_event event (events (state w)) ++ back sa ++ back sb)%list ∧
  count_id event final = length (back sa ++ back sb).
Proof.
  cbv zeta. rewrite remove_overlap_events. cbv zeta.
  rewrite drop_event_twice.
  pose proof (count_id_drop_event event (events (state w))) as Hzero.
  pose proof (count_id_add_back event) as Hback. unfold add_back in Hback.
  destruct sa, sb, first_a; unfold add_back; simpl;
    rewrite ?app_nil_r, <- ?app_assoc; (split; [done|]);
    rewrite ?Hback, ?Hzero; try done;
    by rewrite (app_assoc _ [event] [event]), !Hback, Hzero.
Qed.

End RemovalMore.

(** ** Loading: what the page shows meanwhile and afterwards *)

Section FetchMore.

Implicit Types (err : error) (data : list Js.obj).
Implicit Types (w : world list_page (list Js.obj)).

(** Each list fetch sends one GET and shows the loading line while
    it is under way, the list held so far being kept but hidden; when
    the GET succeeds the list is replaced by the response, whatever
    it held, and the page shows the empty line or the cards of the
    response, with nothing logged. *)
Theorem list_fetch_loading_then_data w data :
  Forall (λ '(fetch, url),
    let started := (run fetch w).2 in
    let r := run_settled fetch (Fulfilled data) w in
    render (state started) = ShowLoading ∧
    events (state started) = events (state w) ∧
    sent started = (sent w ++ [api_get url])%list ∧
    r.1 = Returned tt ∧
    sent r.2 = sent started ∧
    events (state r.2) = data ∧
    render (state r.2) = (if decide (data = []) then ShowEmpty else ShowCards data) ∧
    console r.2 = console w)
    [(EventListPage.fetchEvents, "/events");
     (EventsPage.fetchEvents, "/events");
     (BookmarksPage.fetchBookmarkedEvents, "/events/my-bookmarks")].
Proof.
  repeat apply List.Forall_cons; try apply List.Forall_nil; cbv zeta;
    (repeat split; try reflexivity); exact (render_loaded data).
Qed.

(** The copy of [fetchEvents] that clears the loading flag in a
    [finally] block and the copy that clears it after the
    [try]/[catch] leave the same world, while the request is under
    way and after it settled either way. *)
Theorem fetchEvents_copies_agree w (s : settlement (list Js.obj)) :
  (run EventsPage.fetchEvents w).2 = (run EventListPage.fetchEvents w).2 ∧
  run_settled EventsPage.fetchEvents s w = run_settled EventListPage.fetchEvents s w.
Proof. split; [reflexivity|]. destruct s; reflexivity. Qed.

End FetchMore.

(** ** Notifications: sign-in, badge and re-fetches *)

Section NotificationsMore.

Implicit Types (err : error) (data fetched : list Js.obj) (id : Js.value).
Implicit Types (wn : world MainApp.t (list Js.obj)).

(** The one continuation behind every fetch of the notifications
    that nobody waits for. *)
Lemma notifications_refetch_parked :
  ∃ k,
    (∀ id data wn,
       run_settled (NotificationsPage.handleMarkRead id) (Fulfilled data) wn =
       (Returned tt,
        park (api_get "/events/notifications") k
          (send (api_get "/events/notifications")
             (send (api_put (NotificationsPage.mark_read_url id)) wn)))) ∧
    (∀ (u : Js.obj) wn,
       run (MainApp.on_user_change (Some u)) wn =
       (Returned tt,
        park (api_get "/events/notifications") k
          (send (api_get "/events/notifications")
             (with_state (MainApp.setPage "events") wn)))) ∧
    (∀ fetched w', run_to_await (k (Fulfilled fetched)) w' =
                   (Returned tt, with_state (MainApp.setNotifications fetched) w')) ∧
    (∀ err w', run_to_await (k (Rejected err)) w' =
               (Returned tt, log_error "Error fetching notifications:" err w')).
Proof. eexists. repeat split; reflexivity. Qed.

Lemma settle_background_at {S R} (w : world S R)
    (l l' : list (request * (settlement R → async S R unit)))
    (rq : request) (k : settlement R → async S R unit) (s : settlement R) :
  background w = (l ++ (rq, k) :: l')%list →
  settle_background (length l) s w =
  let w1 := World (state w) (console w) (sent w) (l ++ l')%list (unhandled w) in
  dropped (run_to_await (k s) w1).1 (run_to_await (k s) w1).2.
Proof.
  intros Hb. unfold settle_background. rewrite Hb.
  rewrite (list_lookup_middle l l' (rq, k) _ eq_refl).
  rewrite (delete_middle l l' (rq, k)). cbv zeta.
  by destruct (run_to_await (k s) _).
Qed.

(** When the user changes.  Signed out: the page becomes the login
    page, nothing is requested and the notifications held are kept.
    Signed in: the page becomes the events page and one GET of the
    notifications is under way; the list held before stays until it
    succeeds, and stays for good, with one log line, when it fails. *)
Theorem user_change_effect wn (u : Js.obj) :
  (let r := run (MainApp.on_user_change None) wn in
   r.1 = Returned tt ∧
   MainApp.page (state r.2) = "login" ∧
   MainApp.notifications (state r.2) = MainApp.notifications (state wn) ∧
   sent r.2 = sent wn ∧
   background r.2 = background wn) ∧
  (let r := run (MainApp.on_user_change (Some u)) wn in
   let get := api_get "/events/notifications" in
   r.1 = Returned tt ∧
   MainApp.page (state r.2) = "events" ∧
   MainApp.notifications (state r.2) = MainApp.notifications (state wn) ∧
   sent r.2 = (sent wn ++ [get])%list ∧
   (∃ k, background r.2 = (background wn ++ [(get, k)])%list) ∧
   (∀ fetched,
      let w' := settle_background (length (background wn)) (Fulfilled fetched) r.2 in
      MainApp.notifications (state w') = fetched ∧
      MainApp.page (state w') = "events") ∧
   (∀ err,
      let w' := settle_background (length (background wn)) (Rejected err) r.2 in
      MainApp.notifications (state w') = MainApp.notifications (state wn) ∧
      console w' = (console wn ++ [("Error fetching notifications:", err)])%list ∧
      unhandled w' = unhandled wn)).
Proof.
  split; [by repeat split|]. cbv zeta.
  destruct notifications_refetch_parked as (k & _ & Hrun & Hok & Hfail).
  rewrite Hrun. simpl.
  split; [done|]. split; [done|]. split; [done|]. split; [done|].
  split; [by eexists|]. split.
  - intros fetched.
    rewrite (settle_background_at _ (background wn) [] _ k) by done.
    cbv zeta. rewrite Hok. simpl. done.
  - intros err.
    rewrite (settle_background_at _ (background wn) [] _ k) by done.
    cbv zeta. rewrite Hfail. simpl. done.
Qed.

(** Re-fetches are not ordered.  After two mark-reads whose writes
    succeeded, two GETs of the list are under way; the list shown in
    the end is the response of the GET that settled last, so the
    response of the first one, arriving late, replaces that of the
    second. *)
Theorem last_settled_refetch_wins wn id1 id2 data1 data2
    (older newer : list Js.obj) :
  let w1 := (run_settled (NotificationsPage.handleMarkRead id1) (Fulfilled data1) wn).2 in
  let w2 := (run_settled (NotificationsPage.handleMarkRead id2) (Fulfilled data2) w1).2 in
  let n := length (background wn) in
  length (background w2) = S (S n) ∧
  MainApp.notifications
    (state (settle_background n (Fulfilled older)
              (settle_background (S n) (Fulfilled newer) w2))) = older ∧
  MainApp.notifications
    (state (settle_background n (Fulfilled newer)
              (settle_background n (Fulfilled older) w2))) = newer.
Proof.
  cbv zeta.
  destruct notifications_refetch_parked as (k & Hrun & _ & Hok & _).
  rewrite !Hrun. cbn [snd].
  set (get := api_get "/events/notifications").
  set (w2 := park get k (send get (send _ (park get k (send get (send _ wn)))))).
  assert (Hb : background w2 = ((background wn ++ [(get, k)]) ++ [(get, k)])%list)
    by reflexivity.
  split; [rewrite Hb, !length_app; simpl; lia|]. split.
  - replace (S (length (background wn)))
      with (length (background wn ++ [(get, k)])%list)
      by (rewrite length_app; simpl; lia).
    rewrite (settle_background_at w2 (background wn ++ [(get, k)])%list [] get k)
      by done.
    cbv zeta. rewrite Hok. simpl.
    rewrite (settle_background_at _ (background wn) [] get k)
      by (simpl; by rewrite app_nil_r).
    cbv zeta. rewrite Hok. reflexivity.
  - rewrite (settle_background_at w2 (background wn) [(get, k)] get k)
      by (rewrite Hb; by rewrite <- app_assoc).
    cbv zeta. rewrite Hok. simpl.
    rewrite (settle_background_at _ (background wn) [] get k) by done.
    cbv zeta. rewrite Hok. reflexivity.
Qed.

Lemma unread_rows (l : list Js.obj) :
  length (filter (λ n, Js.truthy (Js.not (Js.get n "is_read")) = true) l) =
  length (filter (λ r, row_button r = true) (map notification_li l)).
Proof.
  induction l as [|x l IH]; [done|]. rewrite map_cons, !filter_cons.
  change (row_button (notification_li x))
    with (Js.truthy (Js.not (Js.get x "is_read"))).
  destruct (decide _); cbn [length]; by rewrite IH.
Qed.

(** The badge and the rows agree: the unread count is the number of
    rows that offer Mark Read, every row is either greyed or offers
    the button, the count is at most the number of notifications, and
    of the three navigation buttons only Notifications can carry a
    badge, drawn exactly when the count is not zero. *)
Theorem unread_badge_matches_rows (s : MainApp.t) :
  MainApp.unreadCount s =
    length (filter (λ r, row_button r = true) (notification_rows s)) ∧
  Forall (λ r, row_button r = negb (row_read r)) (notification_rows s) ∧
  (MainApp.unreadCount s ≤ length (MainApp.notifications s))%nat ∧
  map nav_badge (MainApp_nav s) =
    [None; None;
     if decide (MainApp.unreadCount s = 0%nat) then None
     else Some (MainApp.unreadCount s)].
Proof.
  split; [apply unread_rows|]. split; [|split].
  - unfold notification_rows. apply Forall_forall. intros r Hr.
    apply list_elem_of_In, in_map_iff in Hr as (x & <- & _). reflexivity.
  - unfold MainApp.unreadCount. apply length_filter.
  - unfold MainApp_nav, NavButton. simpl.
    destruct (MainApp.unreadCount s); reflexivity.
Qed.

End NotificationsMore.

(** ** Signing in: the store and the form *)

Section AuthMore.

Implicit Types (err : error) (identity : Js.obj) (username password : string).
Implicit Types (w : world AuthProvider.t Js.obj).
Implicit Types (wa : world AuthPage.app Js.obj).

Lemma append_empty_r (a b : string) : a ++ b = "" → b = "".
Proof. destruct a; [done|]. simpl. discriminate. Qed.

(** Once the session check has settled, either way, the loading flag
    is down and nothing was thrown; no later call of [login],
    [register] or [logout], whatever its outcome, raises it again;
    and a [login] or [register] that fails leaves the store as it was
    and rejects with the error of the request. *)
Theorem store_never_loads_again w (s : settlement Js.obj) username password err :
  (run_settled AuthProvider.checkSession s w).1 = Returned tt ∧
  AuthProvider.isLoading (state (run_settled AuthProvider.checkSession s w).2) = false ∧
  Forall (λ after : AuthProvider.t,
            AuthProvider.isLoading after = AuthProvider.isLoading (state w))
    [state (run_settled (AuthProvider.login username password) s w).2;
     state (run_settled (AuthProvider.register username password) s w).2;
     state (run_settled AuthProvider.logout s w).2] ∧
  Forall (λ r : outcome AuthProvider.t Js.obj Js.obj * world AuthProvider.t Js.obj,
            r.1 = Threw err ∧ state r.2 = state w)
    [run_settled (AuthProvider.login username password) (Rejected err) w;
     run_settled (AuthProvider.register username password) (Rejected err) w].
Proof.
  split; [by destruct s|]. split; [by destruct s|]. split.
  - repeat apply List.Forall_cons; try apply List.Forall_nil; by destruct s.
  - repeat apply List.Forall_cons; try apply List.Forall_nil; by split.
Qed.

(** The text put in the error box is never empty: an optional
    "(status) " for a status other than 0, then the message of the
    server when it has one that is not empty, else the message of the
    error when not empty, else the fixed sentence. *)
Theorem auth_error_text_never_empty err :
  AuthPage.error_text err ≠ "" ∧
  AuthPage.error_text err =
    (match err_status err with
     | Some n => if decide (n = 0) then "" else "(" ++ pretty n ++ ") "
     | None => ""
     end) ++
    (let fallback := if decide (err_message err = "")
                     then "An error occurred. Please try again."
                     else err_message err in
     match err_server_message err with
     | Some m => if decide (m = "") then fallback else m
     | None => fallback
     end).
Proof.
  assert (Hshape : AuthPage.error_text err =
    (match err_status err with
     | Some n => if decide (n = 0) then "" else "(" ++ pretty n ++ ") "
     | None => ""
     end) ++
    (let fallback := if decide (err_message err = "")
                     then "An error occurred. Please try again."
                     else err_message err in
     match err_server_message err with
     | Some m => if decide (m = "") then fallback else m
     | None => fallback
     end)).
  { unfold AuthPage.error_text, AuthPage.status_text, AuthPage.message_text, js_or.
    destruct err as [st sm m]. simpl. f_equal.
    - destruct st as [n|]; [|done]. simpl.
      destruct (Z.eqb_spec n 0); by case_decide.
    - destruct (decide (m = "")) as [->|Hm];
        destruct sm as [m'|]; try destruct (decide (m' = "")) as [->|Hm'];
        repeat (simpl;
                rewrite ?(proj2 (String.eqb_neq m "")),
                  ?(proj2 (String.eqb_neq m' "")) by done);
        reflexivity. }
  split; [|exact Hshape]. rewrite Hshape. intros Hempty%append_empty_r.
  cbv zeta in Hempty.
  destruct (err_server_message err) as [m'|];
    repeat case_decide; done.
Qed.

(** Submitting the form clears the error shown and sends one POST,
    to /auth/login or /auth/register by the mode shown, with the
    name and password shown.  When the request fails, the rejection
    of [login] or [register] stops here: the handler returns, the
    store is as before, the console has one line, the error box holds
    the text of the error and the other fields of the form are
    kept. *)
Theorem submit_failure_shows_error wa (shown : AuthPage.t) err :
  let call := api_post (if AuthPage.isLogin shown then "/auth/login"
                        else "/auth/register")
                (Some (AuthProvider.credentials (AuthPage.username shown)
                                                (AuthPage.password shown))) in
  let started := (run (AuthPage.handleSubmit shown) wa).2 in
  let r := run_settled (AuthPage.handleSubmit shown) (Rejected err) wa in
  AuthPage.error (AuthPage.form (state started)) = None ∧
  sent started = (sent wa ++ [call])%list ∧
  r.1 = Returned tt ∧
  unhandled r.2 = unhandled wa ∧
  sent r.2 = sent started ∧
  console r.2 = (console wa ++ [("Auth error:", err)])%list ∧
  AuthPage.store (state r.2) = AuthPage.store (state wa) ∧
  AuthPage.form (state r.2) =
    AuthPage.setError (Some (AuthPage.error_text err)) (AuthPage.form (state wa)).
Proof.
  cbv zeta. destruct shown as [[|] u p e];
    destruct wa as [[st [l u' p' e']] c sn b uh]; by repeat split.
Qed.

(** When the request of a submit succeeds, the store holds the
    identity returned, its loading flag is untouched, the error box
    is empty, the other fields of the form are kept and nothing is
    logged. *)
Theorem submit_success_signs_in wa (shown : AuthPage.t) identity :
  let r := run_settled (AuthPage.handleSubmit shown) (Fulfilled identity) wa in
  r.1 = Returned tt ∧
  AuthProvider.user (AuthPage.store (state r.2)) = Some identity ∧
  AuthProvider.isLoading (AuthPage.store (state r.2)) =
    AuthProvider.isLoading (AuthPage.store (state wa)) ∧
  AuthPage.form (state r.2) = AuthPage.setError None (AuthPage.form (state wa)) ∧
  console r.2 = console wa ∧
  unhandled r.2 = unhandled wa.
Proof.
  cbv zeta. destruct shown as [[|] u p e];
    destruct wa as [[st [l u' p' e']] c sn b uh]; by repeat split.
Qed.

End AuthMore.

(** ** What is drawn *)

Section Views.

Implicit Types (event : Js.obj) (w : world list_page (list Js.obj)).

(** The button of a card says what a click on the events page
    requests: Remove Bookmark goes with DELETE and Bookmark Event with
    POST, and there is no other request.  On the bookmarks page the
    click requests DELETE whatever the label.  Without a signed-in
    user there is no button; and the location shown is never a falsy
    value. *)
Theorem card_button_announces_request w (user : Js.obj) event :
  Forall (λ handler,
    ∃ rq k, (run (handler event) w).1 = Suspended rq k ∧
            card_button (EventCard (Some user) event) =
              Some (if decide (req_method rq = DELETE)
                    then "Remove Bookmark" else "Bookmark Event") ∧
            (req_method rq = DELETE ∨ req_method rq = POST))
    toggle_handlers ∧
  (∃ k, (run (BookmarksPage.handleRemoveBookmark event) w).1 =
        Suspended (api_delete (bookmark_url event)) k) ∧
  card_button (EventCard None event) = None ∧
  Js.truthy (card_location (EventCard (Some user) event)) = true.
Proof.
  split; [|split; [|split]].
  - assert (Hgoal :
      ∃ rq k, (run (EventListPage.handleBookmarkToggle event) w).1 = Suspended rq k ∧
              card_button (EventCard (Some user) event) =
                Some (if decide (req_method rq = DELETE)
                      then "Remove Bookmark" else "Bookmark Event") ∧
              (req_method rq = DELETE ∨ req_method rq = POST)).
    { unfold EventListPage.handleBookmarkToggle. rewrite toggle_request_eq.
      do 2 eexists. split; [reflexivity|]. simpl.
      destruct (Js.truthy (Js.get event "isBookmarked")); split; auto. }
    for_each_handler Hgoal.
  - eexists. reflexivity.
  - reflexivity.
  - unfold EventCard, js_or. simpl.
    by destruct (Js.truthy (Js.get event "location")) eqn:Hloc.
Qed.

(** The pills of the extracted header: Events, Bookmarks and
    Notifications in that order; one of them is active when the
    active page is one of their keys and none otherwise; the unread
    count goes to the Notifications pill and 0 to the others. *)
Theorem header_pills activePage (unreadCount : nat) :
  let ps := AppHeader.pills activePage unreadCount in
  map AppHeader.pill_key ps = ["events"; "bookmarks"; "notifications"] ∧
  length (filter (λ p, AppHeader.pill_active p = true) ps) =
    (if decide (activePage ∈ ["events"; "bookmarks"; "notifications"])
     then 1 else 0)%nat ∧
  Forall (λ p, AppHeader.pill_active p = true ↔ AppHeader.pill_key p = activePage) ps ∧
  map AppHeader.pill_badge ps = [0; 0; unreadCount]%nat.
Proof.
  cbv zeta. split; [reflexivity|]. split; [|split; [|reflexivity]].
  - unfold AppHeader.pills. simpl. rewrite !filter_cons, filter_nil. simpl.
    destruct (String.eqb_spec activePage "events") as [->|H1];
      [reflexivity|].
    destruct (String.eqb_spec activePage "bookmarks") as [->|H2];
      [reflexivity|].
    destruct (String.eqb_spec activePage "notifications") as [->|H3];
      [reflexivity|].
    simpl. rewrite decide_False; [done|].
    intros Hin. repeat (apply elem_of_cons in Hin as [?|Hin]; [done|]).
    by apply not_elem_of_nil in Hin.
  - unfold AppHeader.pills. simpl.
    repeat apply List.Forall_cons; try apply List.Forall_nil; simpl;
      rewrite String.eqb_eq; split; congruence.
Qed.

(** A click flips the label of the clicked card whatever its flag
    held, a boolean or not: right after the click, the card of an
    item with the id of [event] reads Bookmark Event when the flag
    was truthy and Remove Bookmark when it was falsy or missing. *)
Theorem toggle_flips_label w (user : Js.obj) event (n : nat) (e : Js.obj) :
  events (state w) !! n = Some e →
  Js.get e "id" = Js.get event "id" →
  Forall (λ handler,
    ∃ e', events (state (run (handler event) w).2) !! n = Some e' ∧
          card_button (EventCard (Some user) e') =
            Some (if Js.truthy (Js.get e "isBookmarked")
                  then "Bookmark Event" else "Remove Bookmark") ∧
          card_button (EventCard (Some user) e') ≠
            card_button (EventCard (Some user) e))
    toggle_handlers.
Proof.
  intros Hn Hid.
  assert (Hgoal :
    ∃ e', events (state (run (EventListPage.handleBookmarkToggle event) w).2) !! n
            = Some e' ∧
          card_button (EventCard (Some user) e') =
            Some (if Js.truthy (Js.get e "isBookmarked")
                  then "Bookmark Event" else "Remove Bookmark") ∧
          card_button (EventCard (Some user) e') ≠
            card_button (EventCard (Some user) e)).
  { rewrite toggle_started. simpl. rewrite flip_bookmark_lookup, Hn. simpl.
    eexists. split; [reflexivity|].
    rewrite flip_item_target by done. unfold EventCard. simpl.
    rewrite get_spread_set_eq. unfold Js.not. simpl.
    by destruct (Js.truthy (Js.get e "isBookmarked")). }
  for_each_handler Hgoal.
Qed.

Lemma toggle_flips_label_witness :
  Forall (λ handler,
    ∃ e', events (state (run (handler (Sample.bookmark_item 5))
                             (Sample.page_world [Sample.bookmark_item 5])).2) !! 0%nat
            = Some e' ∧
          card_button (EventCard (Some (Sample.identity "ada")) e') =
            Some (if Js.truthy (Js.get (Sample.bookmark_item 5) "isBookmarked")
                  then "Bookmark Event" else "Remove Bookmark") ∧
          card_button (EventCard (Some (Sample.identity "ada")) e') ≠
            card_button (EventCard (Some (Sample.identity "ada"))
                                   (Sample.bookmark_item 5)))
    toggle_handlers.
Proof.
  apply (toggle_flips_label (Sample.page_world [Sample.bookmark_item 5])
           (Sample.identity "ada") (Sample.bookmark_item 5) 0
           (Sample.bookmark_item 5)); reflexivity.
Defined.

End Views.
